(** * wiki_api: word-frequency service (assignment.py)

    A shallow embedding of the request pipeline of [assignment.py]:
    fetch -> clean -> analyze -> persist, and of the two HTTP handlers
    [word_frequency] and [search_history].

    Conventions of the embedding.
    - A Python [str] is a [string]; each [ascii] stands for the code point
      of the same number, so the texts covered are those over code points
      0..255.
    - A Python [int] is a [Z].
    - A Python [dict] is an association list in insertion order (a dict
      never holds a key twice); order matters for [Counter] and for
      [list(d.keys())[0]].
    - The value decoded by [response.json()] is a [json].
    - Effects (the outbound HTTP calls, the error log, the SQLite table) are
      explicit in a [world] that every step threads; Python exceptions are
      the [Raise] outcome of a step. *)

From Stdlib Require Import String Ascii List ZArith Lia Bool Arith.
From Stdlib Require Import Sorted Permutation.
From Stdlib Require Import DecimalString.
From Stdlib Require Floats.SpecFloat.
Import ListNotations.

Local Open Scope string_scope.
Local Open Scope Z_scope.

(** ** Python strings *)

Module PyStr.

(** [str.isspace] on one character, for the code points below 256:
    TAB, LF, VT, FF, CR, FS, GS, RS, US, SPACE, NEL (0x85), NBSP (0xa0). *)
Definition is_space (c : ascii) : bool :=
  let k := nat_of_ascii c in
  ((9 <=? k) && (k <=? 13) || (28 <=? k) && (k <=? 32)
   || (k =? 133) || (k =? 160))%nat.

Definition is_empty (s : string) : bool :=
  match s with EmptyString => true | String _ _ => false end.

(** [s.split()] with no separator: the maximal runs of non-whitespace
    characters, left to right; [tok] is the run being read. *)
Fixpoint split_from (tok : string) (s : string) : list string :=
  match s with
  | EmptyString => if is_empty tok then [] else [tok]
  | String c rest =>
      if is_space c
      then (if is_empty tok then split_from "" rest
            else tok :: split_from "" rest)
      else split_from (tok ++ String c "") rest
  end.

Definition split (s : string) : list string := split_from "" s.

(** [sep.join(parts)] *)
Fixpoint join (sep : string) (parts : list string) : string :=
  match parts with
  | [] => ""
  | [p] => p
  | p :: rest => p ++ sep ++ join sep rest
  end.

(** [str(i)] for an [int]: decimal digits, a leading minus when negative. *)
Definition of_int (i : Z) : string := NilZero.string_of_int (Z.to_int i).

End PyStr.

(** ** collections.Counter *)

Module Counter.

(** The items of a [Counter], in insertion order. *)
Definition t := list (string * Z).

(** [self[elem] = self.get(elem, 0) + 1]: an existing key keeps its
    position, a new key goes last. *)
Fixpoint add (elem : string) (c : t) : t :=
  match c with
  | [] => [(elem, 1)]
  | (k, v) :: rest =>
      if string_dec k elem then (k, v + 1) :: rest
      else (k, v) :: add elem rest
  end.

(** [Counter(iterable)]: elements are counted in iteration order. *)
Definition of_list (words : list string) : t :=
  fold_left (fun c w => add w c) words [].

(** Insertion of one item in a list sorted by descending count; the item
    goes before the first item whose count is not larger, so that an item
    inserted earlier in the input stays ahead of its equals. *)
Fixpoint insert_desc (x : string * Z) (l : t) : t :=
  match l with
  | [] => [x]
  | y :: rest =>
      if snd x <? snd y then y :: insert_desc x rest
      else x :: y :: rest
  end.

(** [sorted(items, key=itemgetter(1), reverse=True)]: a stable sort, equal
    counts keep the order of [items]. *)
Definition sorted_desc (items : t) : t := fold_right insert_desc [] items.

(** [most_common(n)] for an integer [n] is
    [heapq.nlargest(n, self.items(), key=itemgetter(1))], which is
    [sorted(self.items(), key=itemgetter(1), reverse=True)[:n]];
    nothing is returned when [n <= 0]. *)
Definition most_common (n : Z) (c : t) : t :=
  firstn (Z.to_nat n) (sorted_desc c).

End Counter.

(** ** analyze_word_frequency (assignment.py, lines 69-76) *)

Definition analyze_word_frequency (article_text : string) (n : Z)
  : list (string * Z) :=
  let words := PyStr.split article_text in
  let word_frequency := Counter.most_common n (Counter.of_list words) in
  word_frequency.

(** ** Vocabulary of the statements about token streams *)

(** Number of occurrences of [w] in the token stream. *)
Definition occurrences (w : string) (tokens : list string) : Z :=
  Z.of_nat (count_occ string_dec tokens w).

(** Position of the first occurrence of [w] (the length when absent). *)
Fixpoint first_index (w : string) (tokens : list string) : nat :=
  match tokens with
  | [] => O
  | x :: rest => if string_dec x w then O else S (first_index w rest)
  end.

(** Number of distinct tokens. *)
Definition distinct_count (tokens : list string) : nat :=
  length (nodup string_dec tokens).

(** [a] ranks ahead of [b]: a larger count, or the same count and an earlier
    first appearance in [tokens]. *)
Definition ranks_before (tokens : list string) (a b : string * Z) : Prop :=
  snd b < snd a \/
  (snd a = snd b /\ (first_index (fst a) tokens < first_index (fst b) tokens)%nat).

(** ** Values decoded from JSON, with Python's operations on them *)

#[local] Set Warnings "-register-all".

Inductive json : Type :=
| JNull                                   (* None *)
| JBool (b : bool)
| JInt (i : Z)
| JFloat (f : SpecFloat.spec_float)
| JStr (s : string)
| JArr (items : list json)                (* list *)
| JObj (items : list (string * json)).    (* dict, in insertion order *)

Inductive exn : Type :=
| KeyError (key : string)
| TypeError
| IndexError
| AttributeError
| ValueError (msg : string)
| RequestException.

Inductive result (A : Type) : Type :=
| Ok (a : A)
| Raise (e : exn).
Arguments Ok {A} a.
Arguments Raise {A} e.

Definition rbind {A B} (r : result A) (k : A -> result B) : result B :=
  match r with Ok a => k a | Raise e => Raise e end.

Notation "'let*' x ':=' e 'in' k" := (rbind e (fun x => k))
  (at level 10, x name, e at level 100, k at level 200).

Module Py.

(** [bool(v)] *)
Definition truthy (v : json) : bool :=
  match v with
  | JNull => false
  | JBool b => b
  | JInt i => negb (i =? 0)
  | JFloat f =>
      match f with SpecFloat.S754_zero _ => false | _ => true end
  | JStr s => negb (PyStr.is_empty s)
  | JArr items => match items with [] => false | _ => true end
  | JObj items => match items with [] => false | _ => true end
  end.

Fixpoint lookup (key : string) (items : list (string * json)) : option json :=
  match items with
  | [] => None
  | (k, v) :: rest => if string_dec k key then Some v else lookup key rest
  end.

Definition is_substring (pat s : string) : bool :=
  match index 0 pat s with Some _ => true | None => false end.

(** [key in v] for a [str] key: key membership in a dict, element
    membership in a list, substring test in a str, [TypeError] otherwise. *)
Definition contains (key : string) (v : json) : result bool :=
  match v with
  | JObj items =>
      Ok (match lookup key items with Some _ => true | None => false end)
  | JArr items =>
      Ok (existsb (fun x => match x with
                            | JStr s => if string_dec s key then true else false
                            | _ => false
                            end) items)
  | JStr s => Ok (is_substring key s)
  | _ => Raise TypeError
  end.

(** [v[key]] for a [str] key: only a dict can be indexed by a str. *)
Definition getitem (v : json) (key : string) : result json :=
  match v with
  | JObj items =>
      match lookup key items with
      | Some x => Ok x
      | None => Raise (KeyError key)
      end
  | _ => Raise TypeError
  end.

(** [list(v.keys())] *)
Definition keys (v : json) : result (list string) :=
  match v with
  | JObj items => Ok (map fst items)
  | _ => Raise AttributeError
  end.

(** [l[0]] *)
Definition first {A} (l : list A) : result A :=
  match l with
  | x :: _ => Ok x
  | [] => Raise IndexError
  end.

Definition digit_value (c : ascii) : option Z :=
  let k := nat_of_ascii c in
  if ((48 <=? k) && (k <=? 57))%nat then Some (Z.of_nat (k - 48)) else None.

(** The whitespace [int()] skips around a number: the ASCII blanks TAB,
    LF, VT, FF, CR and SPACE, and beyond ASCII the characters for which
    [str.isspace] holds (NEL and NBSP below 256). The separators FS, GS,
    RS and US (0x1c-0x1f) are not skipped. *)
Definition int_space (c : ascii) : bool :=
  let k := nat_of_ascii c in
  ((9 <=? k) && (k <=? 13) || (k =? 32) || (k =? 133) || (k =? 160))%nat.

Fixpoint skip_int_space (s : string) : string :=
  match s with
  | EmptyString => ""
  | String c rest => if int_space c then skip_int_space rest else s
  end.

(** The run of decimal digits at the head of [s], single underscores
    allowed between two digits: its value, the number of its digits and
    what follows it. [need_digit] holds at the start and after an
    underscore, where only a digit may come; [None] when something else
    comes there. *)
Fixpoint scan_digits (acc count : Z) (need_digit : bool) (s : string)
  : option (Z * Z * string) :=
  match s with
  | EmptyString => if need_digit then None else Some (acc, count, "")
  | String c rest =>
      match digit_value c with
      | Some d => scan_digits (10 * acc + d) (count + 1) false rest
      | None =>
          if need_digit then None
          else if Ascii.eqb c "_" then scan_digits acc count true rest
          else Some (acc, count, s)
      end
  end.

(** [sys.get_int_max_str_digits()] as the interpreter starts. *)
Definition int_max_str_digits : Z := 4300.

Definition hex_digit (k : nat) : ascii :=
  nth k (list_ascii_of_string "0123456789abcdef") "0"%char.

Definition double_quote : ascii := ascii_of_nat 34.
Definition single_quote : ascii := ascii_of_nat 39.
Definition backslash : ascii := ascii_of_nat 92.

Definition has_char (c : ascii) (s : string) : bool :=
  existsb (Ascii.eqb c) (list_ascii_of_string s).

Definition repr_char (quote c : ascii) : string :=
  let k := nat_of_ascii c in
  if Ascii.eqb c quote || Ascii.eqb c backslash
  then String backslash (String c "")
  else if (k =? 9)%nat then String backslash "t"
  else if (k =? 10)%nat then String backslash "n"
  else if (k =? 13)%nat then String backslash "r"
  else if ((k <? 32) || (k =? 127) || ((128 <=? k) && (k <=? 160))
           || (k =? 173))%nat
  then String backslash
         (String "x" (String (hex_digit (k / 16)) (String (hex_digit (k mod 16)) "")))
  else String c "".

(** [repr(s)] for a [str] *)
Definition repr (s : string) : string :=
  let quote :=
    if has_char single_quote s && negb (has_char double_quote s)
    then double_quote else single_quote in
  String quote
    (String.concat "" (map (repr_char quote) (list_ascii_of_string s))
     ++ String quote "").

(** [int(s)] for a [str]: leading whitespace, an optional sign, a run of
    digits, trailing whitespace. A run of more than 4300 digits is
    refused with its own [ValueError]; every other text that is not of
    this form gets the [ValueError] whose message shows at most 200
    characters of [repr(s)]. *)
Definition int (s : string) : result Z :=
  let invalid :=
    Raise (ValueError ("invalid literal for int() with base 10: "
                       ++ substring 0 200 (repr s))) in
  let body := skip_int_space s in
  let '(negative, number) :=
    match body with
    | String "-" rest => (true, rest)
    | String "+" rest => (false, rest)
    | _ => (false, body)
    end in
  match scan_digits 0 0 true number with
  | None => invalid
  | Some (value, count, rest) =>
      if int_max_str_digits <? count
      then Raise (ValueError
                    ("Exceeds the limit (4300 digits) for integer string conversion: value has "
                     ++ PyStr.of_int count
                     ++ " digits; use sys.set_int_max_str_digits() to increase the limit"))
      else if PyStr.is_empty (skip_int_space rest)
      then Ok (if negative then - value else value)
      else invalid
  end.

End Py.

(** ** The world: network, log and database *)

(** A row of the [SearchHistory] table (lines 23-26). *)
Record SearchHistory : Type := {
  id : Z;
  topic : string;
  top_words : string
}.

(** What [requests.get(url)] meets: a transport failure, or a response with
    a status code and, when its body is valid JSON, the decoded value. *)
Inductive http_result : Type :=
| TransportFailure
| HttpResponse (status_code : Z) (decoded : option json).

Inductive log_record : Type :=
| LogFetchError                      (* 'Error fetching Wikipedia data: ...' *)
| LogNoCleanText (data : json).      (* 'Failed to retrieve clean article text ...' *)

(** [table] holds the rows in rowid order, the order in which a scan of the
    table returns them; [requests] lists the URLs given to [requests.get],
    oldest first; [error_log] the records written by [app.logger.error]. *)
Record world : Type := {
  table : list SearchHistory;
  requests : list string;
  error_log : list log_record
}.

Definition M (A : Type) : Type := world -> result A * world.

Definition ret {A} (a : A) : M A := fun w => (Ok a, w).

Definition raise {A} (e : exn) : M A := fun w => (Raise e, w).

Definition bind {A B} (m : M A) (k : A -> M B) : M B :=
  fun w => match m w with
           | (Ok a, w') => k a w'
           | (Raise e, w') => (Raise e, w')
           end.

Definition lift {A} (r : result A) : M A := fun w => (r, w).

Notation "x <- m ;; k" := (bind m (fun x => k))
  (at level 100, m at next level, right associativity).
Notation "m ;;; k" := (bind m (fun _ => k))
  (at level 100, right associativity).

(** [try: body except E as e: handler(e)] where [catches] recognises [E];
    what the body did to the world before raising stays done. *)
Definition try_except {A} (body : M A) (catches : exn -> bool)
    (handler : exn -> M A) : M A :=
  fun w => match body w with
           | (Ok a, w') => (Ok a, w')
           | (Raise e, w') =>
               if catches e then handler e w' else (Raise e, w')
           end.

Definition is_RequestException (e : exn) : bool :=
  match e with RequestException => true | _ => false end.

Definition is_ValueError (e : exn) : bool :=
  match e with ValueError _ => true | _ => false end.

Definition str_of_exn (e : exn) : string :=
  match e with
  | ValueError msg => msg
  | KeyError key => Py.repr key
  | _ => ""
  end.

Definition logger_error (r : log_record) : M unit :=
  fun w => (Ok tt, {| table := table w;
                      requests := requests w;
                      error_log := error_log w ++ [r] |}).

(** The rowid SQLite gives to a new row: 1 in an empty table, otherwise one
    more than the largest rowid in use. *)
Definition next_id (rows : list SearchHistory) : Z :=
  match map id rows with
  | [] => 1
  | i :: others => 1 + fold_left Z.max others i
  end.

(** [db.session.add(entry); db.session.commit()] *)
Definition db_add_commit (topic0 top_words0 : string) : M unit :=
  fun w => (Ok tt,
            {| table := table w ++ [{| id := next_id (table w);
                                       topic := topic0;
                                       top_words := top_words0 |}];
               requests := requests w;
               error_log := error_log w |}).

(** [SearchHistory.query.all()] *)
Definition query_all : M (list SearchHistory) :=
  fun w => (Ok (table w), w).

(** ** save_search_history (lines 57-66) *)

Definition serialize_top_words (word_frequency_result : list (string * Z))
  : string :=
  PyStr.join ", "
    (map (fun '(word, count) => word ++ ": " ++ PyStr.of_int count)
         word_frequency_result).

Definition save_search_history (topic0 : string)
    (word_frequency_result : list (string * Z)) : M unit :=
  let top_words_str := serialize_top_words word_frequency_result in
  db_add_commit topic0 top_words_str.

(** ** HTTP responses of the handlers *)

Record http_response : Type := {
  status : Z;
  body : json
}.

(** [jsonify({'error': msg}), code] *)
Definition error_response (msg : string) (code : Z) : http_response :=
  {| status := code; body := JObj [("error", JStr msg)] |}.

(** A (word, count) tuple is rendered as a two-element array. *)
Definition json_of_pair (p : string * Z) : json :=
  JArr [JStr (fst p); JInt (snd p)].

Definition word_frequency_body (r : list (string * Z)) : json :=
  JObj [("word_frequency", JArr (map json_of_pair r))].

Definition json_of_entry (e : SearchHistory) : json :=
  JObj [("topic", JStr (topic e)); ("top_words", JStr (top_words e))].

Definition search_history_body (rows : list SearchHistory) : json :=
  JObj [("search_history", JArr (map json_of_entry rows))].

(** [request.args.get(key)]: the first value given for [key], if any. *)
Fixpoint args_get (key : string) (args : list (string * string))
  : option string :=
  match args with
  | [] => None
  | (k, v) :: rest => if string_dec k key then Some v else args_get key rest
  end.

Definition page_id_url (topic0 : string) : string :=
  "https://en.wikipedia.org/w/api.php?action=query&format=json&titles="
  ++ topic0.

Definition full_content_url (page_id : string) : string :=
  "https://en.wikipedia.org/w/api.php?action=query&format=json&pageids="
  ++ page_id ++ "&prop=extracts".

Section Service.

(** The encyclopedia API as it answers during one request. *)
Variable net : string -> http_result.

(** [BeautifulSoup(markup, 'html.parser').get_text()], a library function
    that is not part of this repository. *)
Variable soup_get_text : json -> result string.

(** [requests.get(url)] *)
Definition requests_get (url : string) : M http_result :=
  fun w =>
    let w' := {| table := table w;
                 requests := requests w ++ [url];
                 error_log := error_log w |} in
    match net url with
    | TransportFailure => (Raise RequestException, w')
    | r => (Ok r, w')
    end.

(** [response.raise_for_status()]: [HTTPError] for a 4xx or 5xx status. *)
Definition raise_for_status (response : http_result) : M unit :=
  match response with
  | HttpResponse code _ =>
      if (400 <=? code) && (code <? 600) then raise RequestException
      else ret tt
  | TransportFailure => raise RequestException
  end.

(** [response.json()]: [requests.exceptions.JSONDecodeError] when the body
    is not JSON. *)
Definition response_json (response : http_result) : M json :=
  match response with
  | HttpResponse _ (Some v) => ret v
  | _ => raise RequestException
  end.

(** fetch_wikipedia_data (lines 29-54); [None] is [JNull]. *)
Definition fetch_wikipedia_data (topic0 : string) : M json :=
  try_except
    (response <- requests_get (page_id_url topic0) ;;
     raise_for_status response ;;;
     data <- response_json response ;;
     page_id <- lift (let* q := Py.getitem data "query" in
                      let* pages := Py.getitem q "pages" in
                      let* ks := Py.keys pages in
                      Py.first ks) ;;
     response <- requests_get (full_content_url page_id) ;;
     raise_for_status response ;;;
     response_json response)
    is_RequestException
    (fun e => logger_error LogFetchError ;;; ret JNull).

(** [not data or 'query' not in data or 'pages' not in data['query']]
    (line 102), evaluated left to right. *)
Definition article_not_found (data : json) : result bool :=
  if negb (Py.truthy data) then Ok true
  else
    let* has_query := Py.contains "query" data in
    if negb has_query then Ok true
    else
      let* q := Py.getitem data "query" in
      let* has_pages := Py.contains "pages" q in
      Ok (negb has_pages).

(** [data['query']['pages']] *)
Definition pages_of (data : json) : result json :=
  let* q := Py.getitem data "query" in Py.getitem q "pages".

(** word_frequency (lines 79-127) *)
Definition word_frequency (args : list (string * string)) : M http_response :=
  let topic0 := args_get "topic" args in
  let n := args_get "n" args in
  match topic0, n with
  | Some topic0, Some n =>
      if PyStr.is_empty topic0 || PyStr.is_empty n
      then ret (error_response "Invalid input. Both topic and n are required." 400)
      else
        checked <-
          try_except
            (n <- lift (Py.int n) ;;
             if n <=? 0
             then raise (ValueError
                    "Invalid value for n. Please provide a positive integer.")
             else ret (inr n))
            is_ValueError
            (fun e => ret (inl (error_response
                                  ("Invalid value for n. " ++ str_of_exn e) 400))) ;;
        match checked with
        | inl response => ret response
        | inr n =>
            data <- fetch_wikipedia_data topic0 ;;
            not_found <- lift (article_not_found data) ;;
            if not_found
            then ret (error_response
                        "Invalid topic. Wikipedia article not found." 404)
            else
              page_id <- lift (let* pages := pages_of data in
                               let* ks := Py.keys pages in
                               Py.first ks) ;;
              has_title <- lift (let* pages := pages_of data in
                                 let* page := Py.getitem pages page_id in
                                 Py.contains "title" page) ;;
              if negb has_title
              then ret (error_response
                          "Failed to retrieve article details from Wikipedia." 500)
              else
                article_text <- lift (let* pages := pages_of data in
                                      let* page := Py.getitem pages page_id in
                                      Py.getitem page "extract") ;;
                clean_text <- lift (soup_get_text article_text) ;;
                if PyStr.is_empty clean_text
                then
                  logger_error (LogNoCleanText data) ;;;
                  ret (error_response
                         "Failed to retrieve clean article text from Wikipedia." 500)
                else
                  let word_frequency_result :=
                    analyze_word_frequency clean_text n in
                  save_search_history topic0 word_frequency_result ;;;
                  ret {| status := 200;
                         body := word_frequency_body word_frequency_result |}
        end
  | _, _ =>
      ret (error_response "Invalid input. Both topic and n are required." 400)
  end.

(** search_history (lines 130-139) *)
Definition search_history : M http_response :=
  searches <- query_all ;;
  ret {| status := 200; body := search_history_body searches |}.

End Service.

(** A cleaner to run the handlers on concrete inputs. On a [str] without
    markup (no '<', no '&') the parser hands the text over as one string,
    and a string made only of the ASCII blanks SPACE, LF, TAB, FF, CR is
    reduced to one LF if it holds one, to one SPACE otherwise; anything
    that is not a [str] is refused. *)
Definition is_ascii_blank (c : ascii) : bool :=
  let k := nat_of_ascii c in
  ((k =? 32) || (k =? 10) || (k =? 9) || (k =? 12) || (k =? 13))%nat.

Definition markup_free_get_text (markup : json) : result string :=
  match markup with
  | JStr s =>
      let cs := list_ascii_of_string s in
      if PyStr.is_empty s then Ok ""
      else if forallb is_ascii_blank cs
      then (if existsb (Ascii.eqb (ascii_of_nat 10)) cs
            then Ok (String (ascii_of_nat 10) "") else Ok " ")
      else Ok s
  | _ => Raise TypeError
  end.

Definition empty_world : world :=
  {| table := []; requests := []; error_log := [] |}.

(** ** Vocabulary of the statements about requests *)

(** [a] first appears before [b] does in the token stream. *)
Definition appears_before (tokens : list string) (a b : string) : Prop :=
  (first_index a tokens < first_index b tokens)%nat.

(** What holds of [Counter(tokens)]: its keys are the tokens, listed by
    first appearance, each with its number of occurrences. *)
Record counter_of (tokens : list string) (c : Counter.t) : Prop := {
  counter_keys : forall k, In k (map fst c) <-> In k tokens;
  counter_order : StronglySorted (appears_before tokens) (map fst c);
  counter_values : Forall (fun kv => snd kv = occurrences (fst kv) tokens) c
}.

(** The page object the handler reads: the value under the first key of
    [data['query']['pages']] (lines 106-111). *)
Definition first_page (data : json) : result json :=
  let* pages := pages_of data in
  let* ks := Py.keys pages in
  let* page_id := Py.first ks in
  Py.getitem pages page_id.

(** The query parameters pass the validation of lines 82-96 with topic
    [topic0] and integer [n]. *)
Definition valid_request (args : list (string * string))
    (topic0 : string) (n : Z) : Prop :=
  args_get "topic" args = Some topic0 /\
  PyStr.is_empty topic0 = false /\
  exists ns, args_get "n" args = Some ns /\
             PyStr.is_empty ns = false /\
             Py.int ns = Ok n /\ 0 < n.

(** The request fully succeeds: the parameters are valid, the fetch
    returned data [data] (leaving the world [w1]) that has 'query' and
    'pages', the first page has a title and an extract, and the cleaned
    text [text] is not empty. *)
Record request_succeeds (net : string -> http_result)
    (soup_get_text : json -> result string)
    (args : list (string * string)) (w : world)
    (topic0 : string) (n : Z) (text : string) (w1 : world) : Prop := {
  rs_valid : valid_request args topic0 n;
  rs_fetch : exists data page article,
      fetch_wikipedia_data net topic0 w = (Ok data, w1) /\
      article_not_found data = Ok false /\
      first_page data = Ok page /\
      Py.contains "title" page = Ok true /\
      Py.getitem page "extract" = Ok article /\
      soup_get_text article = Ok text;
  rs_text : PyStr.is_empty text = false
}.

(** The row that [save_search_history topic0 r] adds to [rows]. *)
Definition new_entry (rows : list SearchHistory) (topic0 : string)
    (r : list (string * Z)) : SearchHistory :=
  {| id := next_id rows;
     topic := topic0;
     top_words := serialize_top_words r |}.

(** The world after the given saves, done in order. *)
Definition run_saves (saves : list (string * list (string * Z)))
    (w : world) : world :=
  fold_left (fun w s => snd (save_search_history (fst s) (snd s) w)) saves w.

(** The (topic, top_words) pair of each listed entry, in listing order. *)
Definition listed (rows : list SearchHistory) : list (string * string) :=
  map (fun e => (topic e, top_words e)) rows.

(** The world after [save_search_history topic0 r]. *)
Definition saved (topic0 : string) (r : list (string * Z)) (w : world)
  : world :=
  {| table := table w ++ [new_entry (table w) topic0 r];
     requests := requests w;
     error_log := error_log w |}.

(** ** Sample upstream behaviours *)

(** An answer of the query API with the given page objects. *)
Definition api_answer (pages : list (string * json)) : http_result :=
  HttpResponse 200
    (Some (JObj [("batchcomplete", JStr "");
                 ("query", JObj [("pages", JObj pages)])])).

(** An upstream that answers the lookup of [topic0] with page [page_id]
    described by [lookup_page], the content request for [page_id] with
    [content_page], and cannot be reached for anything else. *)
Definition wiki (topic0 page_id : string) (lookup_page content_page : json)
  : string -> http_result :=
  fun url =>
    if String.eqb url (page_id_url topic0)
    then api_answer [(page_id, lookup_page)]
    else if String.eqb url (full_content_url page_id)
    then api_answer [(page_id, content_page)]
    else TransportFailure.

(** The article "Cat" with the text of the spec's scenario. *)
Definition net_cat : string -> http_result :=
  wiki "Cat" "6678"
    (JObj [("pageid", JInt 6678); ("ns", JInt 0); ("title", JStr "Cat")])
    (JObj [("pageid", JInt 6678); ("ns", JInt 0); ("title", JStr "Cat");
           ("extract", JStr "the cat sat on the mat the cat ran")]).

(** An article whose extract is a single space. *)
Definition net_blank : string -> http_result :=
  wiki "Blank" "42"
    (JObj [("pageid", JInt 42); ("ns", JInt 0); ("title", JStr "Blank")])
    (JObj [("pageid", JInt 42); ("ns", JInt 0); ("title", JStr "Blank");
           ("extract", JStr " ")]).

(** A page object with a title and no extract. *)
Definition net_no_extract : string -> http_result :=
  wiki "Stub" "7"
    (JObj [("pageid", JInt 7); ("ns", JInt 0); ("title", JStr "Stub")])
    (JObj [("pageid", JInt 7); ("ns", JInt 0); ("title", JStr "Stub")]).

(** The query API's answers for a title that has no page: the lookup
    lists the title under the page id -1 with a 'missing' marker, and the
    content request for page id -1 reports that id as missing. *)
Definition net_missing : string -> http_result :=
  wiki "Zzyzx123" "-1"
    (JObj [("ns", JInt 0); ("title", JStr "Zzyzx123"); ("missing", JStr "")])
    (JObj [("pageid", JInt (-1)); ("missing", JStr "")]).

(** An upstream that cannot be reached. *)
Definition net_down : string -> http_result := fun _ => TransportFailure.

Definition one_row_world : world :=
  {| table := [{| id := 1; topic := "Cat";
                  top_words := "the: 3, cat: 2, sat: 1" |}];
     requests := [];
     error_log := [] |}.

(** A step that leaves the table as it found it, whatever its outcome. *)
Definition keeps_table {A} (m : M A) : Prop :=
  forall w, table (snd (m w)) = table w.

(** ** Vocabulary of the statements about the upstream calls and runs *)

(** The value [response.json()] gives for an answer that gets past
    [raise_for_status()] and holds JSON; [None] for an answer on which
    one of the two raises. *)
Definition usable (r : http_result) : option json :=
  match r with
  | HttpResponse code (Some v) =>
      if (400 <=? code) && (code <? 600) then None else Some v
  | _ => None
  end.

(** [list(data['query']['pages'].keys())[0]] (line 40). *)
Definition lookup_page_id (data : json) : result string :=
  let* q := Py.getitem data "query" in
  let* pages := Py.getitem q "pages" in
  let* ks := Py.keys pages in
  Py.first ks.

(** The world after the given upstream requests and log records. *)
Definition after_calls (urls : list string) (logged : list log_record)
    (w : world) : world :=
  {| table := table w;
     requests := requests w ++ urls;
     error_log := error_log w ++ logged |}.

(** The rows are in strictly ascending rowid order. *)
Definition ids_ascending (rows : list SearchHistory) : Prop :=
  StronglySorted (fun a b => id a < id b) rows.

(** A step whose outcome does not depend on the world it starts from. *)
Definition answer_independent {A} (m : M A) : Prop :=
  forall w w2, fst (m w) = fst (m w2).

(** Sum of the counts of a result. *)
Definition total_count (r : list (string * Z)) : Z :=
  fold_right (fun p acc => snd p + acc) 0 r.

(** No character of [s] is whitespace. *)
Definition no_whitespace (s : string) : bool :=
  forallb (fun c => negb (PyStr.is_space c)) (list_ascii_of_string s).

(** The text made of [n] times the character [c]. *)
Definition repeat_char (n : nat) (c : ascii) : string :=
  string_of_list_ascii (repeat c n).

(** Every character of [s] is whitespace. *)
Definition all_space (s : string) : bool :=
  forallb PyStr.is_space (list_ascii_of_string s).

(** [s] is empty or begins with a whitespace character. *)
Definition starts_blank (s : string) : bool :=
  match s with
  | EmptyString => true
  | String c _ => PyStr.is_space c
  end.

(** What "the whitespace-delimited tokens of a text" means, said without
    the splitting function: the text is whitespace, then a token (a
    non-empty run without whitespace that is followed by whitespace or by
    the end), then the remainder with the remaining tokens; a text that
    is all whitespace has no token. *)
Inductive whitespace_delimited : string -> list string -> Prop :=
| wd_blank (ws : string) :
    all_space ws = true -> whitespace_delimited ws []
| wd_token (ws tok rest : string) (toks : list string) :
    all_space ws = true ->
    tok <> "" ->
    no_whitespace tok = true ->
    starts_blank rest = true ->
    whitespace_delimited rest toks ->
    whitespace_delimited (ws ++ tok ++ rest) (tok :: toks).

(** What "comma-separated 'word: count' pairs" means, said without the
    code's string helpers: each pair is the word, a colon and a space,
    and the count in decimal; pairs are separated by a comma and a
    space. *)
Fixpoint word_count_pairs (r : list (string * Z)) : string :=
  match r with
  | [] => ""
  | (word, count) :: rest =>
      let pair := word ++ ": " ++ NilZero.string_of_int (Z.to_int count) in
      match rest with
      | [] => pair
      | _ :: _ => pair ++ ", " ++ word_count_pairs rest
      end
  end.

(** One request to the service, with the upstream as it answers while the
    request is handled. *)
Inductive call : Type :=
| GetWordFrequency (net : string -> http_result)
                   (args : list (string * string))
| GetSearchHistory.

Definition handle (soup_get_text : json -> result string) (c : call)
  : M http_response :=
  match c with
  | GetWordFrequency net args => word_frequency net soup_get_text args
  | GetSearchHistory => search_history
  end.

(** The requests are handled one after the other, each from start to
    finish, on the world the previous one left. *)
Fixpoint serve (soup_get_text : json -> result string) (calls : list call)
    (w : world) : list (result http_response) * world :=
  match calls with
  | [] => ([], w)
  | c :: rest =>
      let '(r, w1) := handle soup_get_text c w in
      let '(rs, w2) := serve soup_get_text rest w1 in
      (r :: rs, w2)
  end.

(** Number of 200 answers to /word_frequency among the outcomes of a run. *)
Fixpoint count_analyses (calls : list call)
    (outcomes : list (result http_response)) : nat :=
  match calls, outcomes with
  | GetWordFrequency _ _ :: calls', Ok resp :: outcomes' =>
      ((if (status resp =? 200)%Z then 1 else 0)
       + count_analyses calls' outcomes')%nat
  | _ :: calls', _ :: outcomes' => count_analyses calls' outcomes'
  | _, _ => 0%nat
  end.

(** An upstream whose lookup of "Cat" works and whose content request is
    answered 503. *)
Definition net_content_down : string -> http_result :=
  fun url =>
    if String.eqb url (page_id_url "Cat")
    then api_answer [("6678", JObj [("pageid", JInt 6678); ("ns", JInt 0);
                                    ("title", JStr "Cat")])]
    else HttpResponse 503 None.

(** An upstream whose lookup answer lists no page at all. *)
Definition net_no_pages : string -> http_result :=
  fun url =>
    if String.eqb url (page_id_url "Nothing") then api_answer []
    else TransportFailure.

(** An article whose extract is the empty string. *)
Definition net_empty_extract : string -> http_result :=
  wiki "Empty" "9"
    (JObj [("pageid", JInt 9); ("ns", JInt 0); ("title", JStr "Empty")])
    (JObj [("pageid", JInt 9); ("ns", JInt 0); ("title", JStr "Empty");
           ("extract", JStr "")]).

(** * Properties *)

(** ** Lists sorted by a relation *)

Section SortedLists.

Context {A : Type}.
Variable R : A -> A -> Prop.

Lemma StronglySorted_weaken (R' : A -> A -> Prop) (l : list A) :
  (forall a b, In a l -> In b l -> R a b -> R' a b) ->
  StronglySorted R l -> StronglySorted R' l.
Proof.
  intros Himp Hs. induction Hs as [|a l Hs IH Hall].
  - constructor.
  - constructor.
    + apply IH. intros x y Hx Hy. apply Himp; now right.
    + rewrite Forall_forall in *. intros y Hy.
      apply Himp; [now left | now right | now apply Hall].
Qed.

Lemma StronglySorted_snoc (l : list A) (x : A) :
  StronglySorted R l -> Forall (fun a => R a x) l ->
  StronglySorted R (l ++ [x]).
Proof.
  intros Hs Hall. induction Hs as [|a l Hs IH Ha]; simpl.
  - repeat constructor.
  - inversion Hall as [|? ? Hax Hrest]; subst.
    constructor; [now apply IH|].
    apply Forall_app; split; [assumption | now repeat constructor].
Qed.

Lemma StronglySorted_app_cross (l1 l2 : list A) (a b : A) :
  StronglySorted R (l1 ++ l2) -> In a l1 -> In b l2 -> R a b.
Proof.
  induction l1 as [|x l1 IH]; simpl; intros Hs Ha Hb; [contradiction|].
  inversion Hs as [|? ? Hs' Hall]; subst.
  destruct Ha as [->|Ha].
  - rewrite Forall_forall in Hall. apply Hall, in_or_app. now right.
  - now apply IH.
Qed.

Lemma StronglySorted_app_left (l1 l2 : list A) :
  StronglySorted R (l1 ++ l2) -> StronglySorted R l1.
Proof.
  induction l1 as [|x l1 IH]; simpl; intros Hs; [constructor|].
  inversion Hs as [|? ? Hs' Hall]; subst.
  constructor; [now apply IH|].
  apply Forall_app in Hall. tauto.
Qed.

Lemma StronglySorted_nth_error (l : list A) :
  StronglySorted R l ->
  forall i j a b, (i < j)%nat ->
    nth_error l i = Some a -> nth_error l j = Some b -> R a b.
Proof.
  intros Hs. induction Hs as [|x l Hs IH Hall]; intros i j a b Hij Hi Hj.
  - destruct i; discriminate.
  - destruct j as [|j]; [lia|]. simpl in Hj.
    destruct i as [|i]; simpl in Hi.
    + injection Hi as <-. rewrite Forall_forall in Hall.
      eapply Hall, nth_error_In, Hj.
    + apply (IH i j); [lia | assumption | assumption].
Qed.

End SortedLists.

(** ** First appearance and number of occurrences *)

Lemma first_index_lt (w : string) (l : list string) :
  In w l -> (first_index w l < length l)%nat.
Proof.
  induction l as [|x l IH]; simpl; [contradiction|].
  intros Hin. destruct (string_dec x w); [lia|].
  destruct Hin as [->|Hin]; [congruence|]. specialize (IH Hin). lia.
Qed.

Lemma first_index_app_old (w : string) (l l' : list string) :
  In w l -> first_index w (l ++ l')%list = first_index w l.
Proof.
  induction l as [|x l IH]; simpl; [contradiction|].
  intros Hin. destruct (string_dec x w); [reflexivity|].
  destruct Hin as [->|Hin]; [congruence|]. now rewrite IH.
Qed.

Lemma first_index_app_new (w : string) (l : list string) :
  ~ In w l -> first_index w (l ++ [w])%list = length l.
Proof.
  induction l as [|x l IH]; simpl; intros Hn.
  - destruct (string_dec w w); congruence.
  - destruct (string_dec x w); [tauto|]. rewrite IH; tauto.
Qed.

Lemma occurrences_snoc (k w : string) (l : list string) :
  occurrences k (l ++ [w])%list
  = occurrences k l + (if string_dec w k then 1 else 0).
Proof.
  unfold occurrences. rewrite count_occ_app. simpl.
  destruct (string_dec w k); lia.
Qed.

Lemma occurrences_absent (w : string) (l : list string) :
  ~ In w l -> occurrences w l = 0.
Proof.
  intros H. unfold occurrences.
  apply (count_occ_not_In string_dec) in H. now rewrite H.
Qed.

Lemma occurrences_pos (w : string) (l : list string) :
  In w l -> 0 < occurrences w l.
Proof.
  intros H. unfold occurrences.
  apply (count_occ_In string_dec) in H. lia.
Qed.

(** ** The counter built from a token stream *)

Lemma add_keys_old (w : string) (c : Counter.t) :
  In w (map fst c) -> map fst (Counter.add w c) = map fst c.
Proof.
  induction c as [|[k v] c IH]; simpl; [contradiction|].
  intros Hin. destruct (string_dec k w); simpl; [reflexivity|].
  destruct Hin as [->|Hin]; [congruence|]. now rewrite IH.
Qed.

Lemma add_new (w : string) (c : Counter.t) :
  ~ In w (map fst c) -> Counter.add w c = (c ++ [(w, 1)])%list.
Proof.
  induction c as [|[k v] c IH]; simpl; intros Hn; [reflexivity|].
  destruct (string_dec k w); [tauto|]. rewrite IH; tauto.
Qed.

Lemma add_values (f g : string -> Z) (w : string) (c : Counter.t) :
  NoDup (map fst c) ->
  Forall (fun kv => snd kv = f (fst kv)) c ->
  (forall k, k <> w -> g k = f k) ->
  g w = f w + 1 ->
  (~ In w (map fst c) -> g w = 1) ->
  Forall (fun kv => snd kv = g (fst kv)) (Counter.add w c).
Proof.
  intros Hnd Hall Hother Hw Hnew.
  induction c as [|[k v] c IH]; simpl.
  - repeat constructor. simpl. symmetry. now apply Hnew.
  - simpl in Hnd. inversion Hnd as [|? ? Hk Hnd']; subst.
    inversion Hall as [|? ? Hkv Hall']; subst. simpl in Hkv.
    destruct (string_dec k w) as [->|Hne].
    + constructor; [simpl; lia|].
      rewrite Forall_forall in *. intros [k' v'] Hin. simpl.
      rewrite Hother; [now apply (Hall' (k', v'))|].
      intros ->. apply Hk. now apply (in_map fst) in Hin.
    + constructor; [simpl; now rewrite Hother|].
      apply IH; try assumption.
      intros Hn. apply Hnew. simpl. tauto.
Qed.

Lemma appears_before_NoDup (tokens l : list string) :
  StronglySorted (appears_before tokens) l -> NoDup l.
Proof.
  intros Hs. induction Hs as [|x l Hs IH Hall]; constructor; [|assumption].
  intros Hin. rewrite Forall_forall in Hall.
  specialize (Hall x Hin). unfold appears_before in Hall. lia.
Qed.

Lemma counter_of_snoc (tokens : list string) (w : string) (c : Counter.t) :
  counter_of tokens c -> counter_of (tokens ++ [w])%list (Counter.add w c).
Proof.
  intros [Hkeys Hord Hval].
  assert (Hnd : NoDup (map fst c)) by (eapply appears_before_NoDup; eauto).
  assert (Hold : StronglySorted (appears_before (tokens ++ [w])%list)
                   (map fst c)).
  { eapply StronglySorted_weaken; [|exact Hord].
    intros a b Ha Hb. unfold appears_before.
    rewrite !first_index_app_old by (now apply Hkeys). tauto. }
  split.
  - intros k. rewrite in_app_iff. simpl.
    destruct (in_dec string_dec w (map fst c)) as [Hin|Hn].
    + rewrite add_keys_old by assumption. rewrite Hkeys.
      split; [tauto|]. intros [H|[<-|[]]]; [assumption | now apply Hkeys].
    + rewrite add_new by assumption. rewrite map_app, in_app_iff, Hkeys.
      simpl. tauto.
  - destruct (in_dec string_dec w (map fst c)) as [Hin|Hn].
    + now rewrite add_keys_old.
    + rewrite add_new by assumption. rewrite map_app. simpl.
      apply StronglySorted_snoc; [assumption|].
      rewrite Forall_forall. intros k Hk. unfold appears_before.
      rewrite first_index_app_old by (now apply Hkeys).
      rewrite first_index_app_new by (now rewrite <- Hkeys).
      apply first_index_lt. now apply Hkeys.
  - apply (add_values (fun k => occurrences k tokens)
                      (fun k => occurrences k (tokens ++ [w])%list));
      try assumption.
    + intros k Hne. rewrite occurrences_snoc.
      destruct (string_dec w k); [congruence | lia].
    + rewrite occurrences_snoc. destruct (string_dec w w); [lia | congruence].
    + intros Hn. rewrite occurrences_snoc.
      rewrite occurrences_absent by (now rewrite <- Hkeys).
      destruct (string_dec w w); [lia | congruence].
Qed.

Lemma of_list_snoc (tokens : list string) (w : string) :
  Counter.of_list (tokens ++ [w])%list = Counter.add w (Counter.of_list tokens).
Proof. unfold Counter.of_list. now rewrite fold_left_app. Qed.

Lemma counter_of_of_list (tokens : list string) :
  counter_of tokens (Counter.of_list tokens).
Proof.
  induction tokens as [|w tokens IH] using rev_ind.
  - split; simpl; [tauto | constructor | constructor].
  - rewrite of_list_snoc. now apply counter_of_snoc.
Qed.

Lemma of_list_length (tokens : list string) :
  length (Counter.of_list tokens) = distinct_count tokens.
Proof.
  destruct (counter_of_of_list tokens) as [Hkeys Hord _].
  rewrite <- (length_map fst). unfold distinct_count.
  apply Permutation_length, NoDup_Permutation.
  - eapply appears_before_NoDup; eauto.
  - apply NoDup_nodup.
  - intros k. rewrite Hkeys, nodup_In. tauto.
Qed.

(** ** The stable descending sort *)

Lemma insert_desc_perm (x : string * Z) (l : Counter.t) :
  Permutation (Counter.insert_desc x l) (x :: l).
Proof.
  induction l as [|y l IH]; simpl; [reflexivity|].
  destruct (snd x <? snd y); [|reflexivity].
  rewrite IH. apply perm_swap.
Qed.

Lemma sorted_desc_perm (l : Counter.t) :
  Permutation (Counter.sorted_desc l) l.
Proof.
  induction l as [|x l IH]; simpl; [reflexivity|].
  rewrite insert_desc_perm. now apply perm_skip.
Qed.

Lemma ranks_before_count (tokens : list string) (a b : string * Z) :
  ranks_before tokens a b -> snd b <= snd a.
Proof. unfold ranks_before. lia. Qed.

Lemma insert_desc_sorted (tokens : list string) (x : string * Z)
    (l : Counter.t) :
  StronglySorted (ranks_before tokens) l ->
  Forall (fun y => appears_before tokens (fst x) (fst y)) l ->
  StronglySorted (ranks_before tokens) (Counter.insert_desc x l).
Proof.
  intros Hs. induction Hs as [|y l Hs IH Hy]; intros Hx; simpl.
  - repeat constructor.
  - inversion Hx as [|? ? Hxy Hxl]; subst.
    destruct (snd x <? snd y) eqn:Hlt.
    + apply Z.ltb_lt in Hlt. constructor; [now apply IH|].
      rewrite Forall_forall in *. intros z Hz.
      apply (Permutation_in _ (insert_desc_perm x l)) in Hz.
      destruct Hz as [<-|Hz]; [left; assumption | now apply Hy].
    + apply Z.ltb_ge in Hlt. constructor; [now constructor|].
      constructor.
      * unfold ranks_before, appears_before in *. lia.
      * rewrite Forall_forall in *. intros z Hz.
        specialize (Hy z Hz). apply ranks_before_count in Hy.
        specialize (Hxl z Hz).
        unfold ranks_before, appears_before in *. lia.
Qed.

Lemma sorted_desc_sorted (tokens : list string) (items : Counter.t) :
  StronglySorted (appears_before tokens) (map fst items) ->
  StronglySorted (ranks_before tokens) (Counter.sorted_desc items).
Proof.
  induction items as [|x items IH]; simpl; intros Hs; [constructor|].
  inversion Hs as [|? ? Hs' Hx]; subst.
  apply insert_desc_sorted; [now apply IH|].
  rewrite Forall_forall in *. intros y Hy.
  apply (Permutation_in _ (sorted_desc_perm items)) in Hy.
  apply Hx. now apply in_map.
Qed.

(** The items of [Counter(tokens)] after the sort: every distinct token
    once, with its count, in ranking order. *)
Lemma ranking_sorted (tokens : list string) :
  StronglySorted (ranks_before tokens)
    (Counter.sorted_desc (Counter.of_list tokens)).
Proof.
  apply sorted_desc_sorted, counter_order, counter_of_of_list.
Qed.

Lemma ranking_NoDup (tokens : list string) :
  NoDup (map fst (Counter.sorted_desc (Counter.of_list tokens))).
Proof.
  eapply Permutation_NoDup.
  - apply Permutation_map, Permutation_sym, sorted_desc_perm.
  - eapply appears_before_NoDup, counter_order, counter_of_of_list.
Qed.

Lemma ranking_In (tokens : list string) (w : string) (c : Z) :
  In (w, c) (Counter.sorted_desc (Counter.of_list tokens)) <->
  In w tokens /\ c = occurrences w tokens.
Proof.
  destruct (counter_of_of_list tokens) as [Hkeys _ Hval].
  rewrite Forall_forall in Hval. split.
  - intros Hin. apply (Permutation_in _ (sorted_desc_perm _)) in Hin.
    split; [apply Hkeys; now apply (in_map fst) in Hin|].
    now apply (Hval (w, c)).
  - intros [Hw ->]. apply Hkeys in Hw. apply in_map_iff in Hw.
    destruct Hw as [[k v] [Hk Hin]]. simpl in Hk. subst k.
    apply (Permutation_in _ (Permutation_sym (sorted_desc_perm _))).
    pose proof (Hval _ Hin) as E. simpl in E. now rewrite <- E.
Qed.

Lemma ranking_length (tokens : list string) :
  length (Counter.sorted_desc (Counter.of_list tokens))
  = distinct_count tokens.
Proof.
  rewrite (Permutation_length (sorted_desc_perm _)). apply of_list_length.
Qed.

Lemma analyze_word_frequency_length (text : string) (n : Z) :
  length (analyze_word_frequency text n)
  = Nat.min (Z.to_nat n) (distinct_count (PyStr.split text)).
Proof.
  unfold analyze_word_frequency, Counter.most_common.
  now rewrite length_firstn, ranking_length.
Qed.

(** ** Steps that leave the table alone *)

Lemma keeps_table_ret {A} (a : A) : keeps_table (ret a).
Proof. intros w. reflexivity. Qed.

Lemma keeps_table_raise {A} (e : exn) : keeps_table (@raise A e).
Proof. intros w. reflexivity. Qed.

Lemma keeps_table_lift {A} (r : result A) : keeps_table (lift r).
Proof. intros w. reflexivity. Qed.

Lemma keeps_table_logger_error (r : log_record) :
  keeps_table (logger_error r).
Proof. intros w. reflexivity. Qed.

Lemma keeps_table_bind {A B} (m : M A) (k : A -> M B) :
  keeps_table m -> (forall a, keeps_table (k a)) -> keeps_table (bind m k).
Proof.
  intros Hm Hk w. unfold bind. specialize (Hm w).
  destruct (m w) as [[a|e] w1]; simpl in *; [|assumption].
  now rewrite Hk.
Qed.

Lemma keeps_table_try_except {A} (body : M A) (catches : exn -> bool)
    (handler : exn -> M A) :
  keeps_table body -> (forall e, keeps_table (handler e)) ->
  keeps_table (try_except body catches handler).
Proof.
  intros Hb Hh w. unfold try_except. specialize (Hb w).
  destruct (body w) as [[a|e] w1]; simpl in *; [assumption|].
  destruct (catches e); simpl; [now rewrite Hh | assumption].
Qed.

Lemma keeps_table_requests_get (net : string -> http_result) (url : string) :
  keeps_table (requests_get net url).
Proof. intros w. unfold requests_get. destruct (net url); reflexivity. Qed.

Lemma keeps_table_raise_for_status (response : http_result) :
  keeps_table (raise_for_status response).
Proof.
  intros w. unfold raise_for_status.
  destruct response as [|code decoded]; [reflexivity|].
  destruct ((400 <=? code) && (code <? 600)); reflexivity.
Qed.

Lemma keeps_table_response_json (response : http_result) :
  keeps_table (response_json response).
Proof.
  intros w. unfold response_json.
  destruct response as [|code [v|]]; reflexivity.
Qed.

Create HintDb keeps_table.
#[local] Hint Resolve keeps_table_ret keeps_table_raise keeps_table_lift
  keeps_table_logger_error keeps_table_requests_get
  keeps_table_raise_for_status keeps_table_response_json : keeps_table.

(** The fetch touches the request list and the log, never the table. *)
Lemma keeps_table_fetch_wikipedia_data (net : string -> http_result)
    (topic0 : string) :
  keeps_table (fetch_wikipedia_data net topic0).
Proof.
  unfold fetch_wikipedia_data.
  apply keeps_table_try_except.
  - repeat (apply keeps_table_bind; [auto with keeps_table | intros]).
    auto with keeps_table.
  - intros e. apply keeps_table_bind; auto with keeps_table.
Qed.

(** ** The handlers *)

Ltac run :=
  unfold bind, try_except, lift, ret, raise, logger_error,
         save_search_history, db_add_commit;
  cbv beta iota zeta.

Ltac error_path :=
  right; do 2 eexists; split; [reflexivity|];
  simpl in *; split; [assumption || reflexivity | auto].

Lemma first_page_steps (data : json) (page_id : string) :
  (let* pages := pages_of data in
   let* ks := Py.keys pages in Py.first ks) = Ok page_id ->
  forall (A : Type) (k : json -> result A),
  (let* pages := pages_of data in
   let* page := Py.getitem pages page_id in k page)
  = (let* page := first_page data in k page).
Proof.
  unfold first_page, rbind. intros H A k.
  destruct (pages_of data) as [pages|]; [|reflexivity].
  destruct (Py.keys pages) as [ks|]; [|discriminate].
  destruct (Py.first ks) as [pid|]; [|discriminate].
  now injection H as ->.
Qed.

Lemma first_page_id (data page : json) :
  first_page data = Ok page ->
  exists page_id,
    (let* pages := pages_of data in
     let* ks := Py.keys pages in Py.first ks) = Ok page_id.
Proof.
  unfold first_page, rbind.
  destruct (pages_of data) as [pages|]; [|discriminate].
  destruct (Py.keys pages) as [ks|]; [|discriminate].
  destruct (Py.first ks) as [pid|]; [|discriminate].
  intros _. now exists pid.
Qed.

Lemma int_raises_ValueError (s : string) (e : exn) :
  Py.int s = Raise e -> is_ValueError e = true.
Proof.
  unfold Py.int.
  destruct (match Py.skip_int_space s with
            | String "-" rest => (true, rest)
            | String "+" rest => (false, rest)
            | _ => (false, Py.skip_int_space s)
            end) as [negative number].
  destruct (Py.scan_digits 0 0 true number) as [[[value count] rest]|];
    [|intros H; injection H as <-; reflexivity].
  destruct (Py.int_max_str_digits <? count);
    [intros H; injection H as <-; reflexivity|].
  destruct (PyStr.is_empty (Py.skip_int_space rest)); [discriminate|].
  intros H; injection H as <-; reflexivity.
Qed.


Section Handlers.

Variable net : string -> http_result.
Variable soup_get_text : json -> result string.

(** A request that fully succeeds is answered 200 with the analysis of the
    cleaned text, and its entry is appended to the table. *)
Lemma word_frequency_success (args : list (string * string)) (w : world)
    (topic0 : string) (n : Z) (text : string) (w1 : world) :
  request_succeeds net soup_get_text args w topic0 n text w1 ->
  word_frequency net soup_get_text args w
  = (Ok {| status := 200;
           body := word_frequency_body (analyze_word_frequency text n) |},
     saved topic0 (analyze_word_frequency text n) w1).
Proof.
  intros [(Ht & Hte & ns & Hn & Hne & Hi & Hpos)
          (data & page & article & Hf & Hnf & Hp & Htitle & Hex & Hgt) Htx].
  unfold word_frequency. rewrite Ht, Hn, Hte, Hne.
  run. rewrite Hi.
  destruct (n <=? 0) eqn:Hle; [apply Z.leb_le in Hle; lia|].
  cbn [orb]. rewrite Hf, Hnf.
  destruct (first_page_id _ _ Hp) as [page_id Hid].
  rewrite Hid, !(first_page_steps data page_id Hid).
  unfold rbind. rewrite Hp, Htitle. cbn [negb]. rewrite Hex, Hgt, Htx.
  reflexivity.
Qed.

(** Every request either fully succeeds, or ends in a 400, 404 or 500
    response or in an exception, with the table as it was. *)
Lemma word_frequency_cases (args : list (string * string)) (w : world) :
  (exists topic0 n text w1,
     request_succeeds net soup_get_text args w topic0 n text w1) \/
  (exists res w',
     word_frequency net soup_get_text args w = (res, w') /\
     table w' = table w /\
     match res with
     | Ok resp => status resp = 400 \/ status resp = 404 \/ status resp = 500
     | Raise _ => True
     end).
Proof.
  unfold word_frequency.
  destruct (args_get "topic" args) as [topic0|] eqn:Et; [|error_path].
  destruct (args_get "n" args) as [ns|] eqn:En; [|error_path].
  destruct (PyStr.is_empty topic0) eqn:Hte; [error_path|].
  destruct (PyStr.is_empty ns) eqn:Hne; [error_path|].
  cbn [orb]. run.
  destruct (Py.int ns) as [n|e] eqn:Hi;
    [|destruct (is_ValueError e); error_path].
  destruct (n <=? 0) eqn:Hle; [error_path|].
  apply Z.leb_gt in Hle.
  pose proof (keeps_table_fetch_wikipedia_data net topic0 w) as Htab.
  destruct (fetch_wikipedia_data net topic0 w) as [[data|e] w1] eqn:Hf;
    [|error_path].
  simpl in Htab.
  destruct (article_not_found data) as [[|]|e] eqn:Hnf;
    [error_path| |error_path].
  destruct (let* pages := pages_of data in
            let* ks := Py.keys pages in Py.first ks)
    as [page_id|e] eqn:Hid; [|error_path].
  rewrite !(first_page_steps data page_id Hid).
  unfold rbind.
  destruct (first_page data) as [page|e] eqn:Hp; [|error_path].
  destruct (Py.contains "title" page) as [[|]|e] eqn:Htitle;
    [|error_path|error_path].
  cbn [negb].
  destruct (Py.getitem page "extract") as [article|e] eqn:Hex; [|error_path].
  destruct (soup_get_text article) as [text|e] eqn:Hgt; [|error_path].
  destruct (PyStr.is_empty text) eqn:Htx; [error_path|].
  left. exists topic0, n, text, w1. split.
  - unfold valid_request. repeat split; try assumption.
    exists ns. repeat split; assumption.
  - exists data, page, article. repeat split; assumption.
  - assumption.
Qed.

(** A 200 response is the response of a request that fully succeeds. *)
Lemma word_frequency_200_inv (args : list (string * string)) (w w' : world)
    (resp : http_response) :
  word_frequency net soup_get_text args w = (Ok resp, w') ->
  status resp = 200 ->
  exists topic0 n text w1,
    request_succeeds net soup_get_text args w topic0 n text w1 /\
    table w1 = table w /\
    resp = {| status := 200;
              body := word_frequency_body (analyze_word_frequency text n) |} /\
    w' = saved topic0 (analyze_word_frequency text n) w1.
Proof.
  intros Hrun H200.
  destruct (word_frequency_cases args w)
    as [(topic0 & n & text & w1 & Hs) | (res & w2 & Hrun' & _ & Hst)].
  - exists topic0, n, text, w1.
    pose proof (word_frequency_success _ _ _ _ _ _ Hs) as Hok.
    rewrite Hrun in Hok. injection Hok as -> ->.
    split; [exact Hs|]. split; [|split; reflexivity].
    destruct Hs as [_ (data & _ & _ & Hf & _) _].
    pose proof (keeps_table_fetch_wikipedia_data net topic0 w) as Htab.
    now rewrite Hf in Htab.
  - rewrite Hrun in Hrun'. injection Hrun' as <- <-. lia.
Qed.

End Handlers.

(** ** Whitespace-only text *)

Lemma split_whitespace (text : string) :
  forallb PyStr.is_space (list_ascii_of_string text) = true ->
  PyStr.split text = [].
Proof.
  unfold PyStr.split. induction text as [|c text IH]; simpl; [reflexivity|].
  intros H. apply andb_true_iff in H. destruct H as [Hc Hrest].
  rewrite Hc. now apply IH.
Qed.

Lemma serialize_top_words_join (r : list (string * Z)) :
  serialize_top_words r
  = PyStr.join ", " (map (fun p => fst p ++ ": " ++ PyStr.of_int (snd p)) r).
Proof.
  unfold serialize_top_words. f_equal. apply map_ext. now intros [word count].
Qed.

(** ** The table *)

Lemma fold_left_max_bounds (l : list Z) (i : Z) :
  i <= fold_left Z.max l i /\ Forall (fun x => x <= fold_left Z.max l i) l.
Proof.
  revert i. induction l as [|x l IH]; intros i; simpl.
  - split; [lia | constructor].
  - destruct (IH (Z.max i x)) as [H1 H2]. split; [lia|].
    constructor; [lia | assumption].
Qed.

(** The rowid given to a new row is above every rowid in use, so a row
    appended to a table in rowid order leaves it in rowid order. *)
Lemma next_id_fresh (rows : list SearchHistory) :
  Forall (fun e => id e < next_id rows) rows.
Proof.
  unfold next_id. destruct rows as [|e rows]; [constructor|]. cbn [map].
  destruct (fold_left_max_bounds (map id rows) (id e)) as [H1 H2].
  constructor; [lia|].
  rewrite Forall_forall in *. intros x Hx.
  specialize (H2 (id x) (in_map id _ _ Hx)). cbv beta in H2. lia.
Qed.

Lemma run_saves_listed (saves : list (string * list (string * Z)))
    (w : world) :
  listed (table (run_saves saves w))
  = (listed (table w)
     ++ map (fun s => (fst s, serialize_top_words (snd s))) saves)%list.
Proof.
  unfold run_saves. revert w.
  induction saves as [|s saves IH]; intros w; simpl.
  - now rewrite app_nil_r.
  - rewrite IH. simpl. unfold listed. rewrite map_app. simpl.
    now rewrite <- app_assoc.
Qed.

Lemma json_of_listed (rows : list SearchHistory) :
  map json_of_entry rows
  = map (fun p => JObj [("topic", JStr (fst p)); ("top_words", JStr (snd p))])
        (listed rows).
Proof. unfold listed. rewrite map_map. reflexivity. Qed.

(** ** The model on the spec's scenario *)

Example split_example :
  PyStr.split "  the cat  sat " = ["the"; "cat"; "sat"].
Proof. reflexivity. Qed.

Example analyze_scenario :
  analyze_word_frequency "the cat sat on the mat the cat ran" 3
  = [("the", 3); ("cat", 2); ("sat", 1)].
Proof. reflexivity. Qed.

Example analyze_few_tokens :
  analyze_word_frequency "b a b" 10 = [("b", 2); ("a", 1)].
Proof. reflexivity. Qed.

Example int_examples :
  Py.int " -1_000 " = Ok (-1000) /\ Py.int "+7" = Ok 7 /\
  Py.int "1__0"
  = Raise (ValueError "invalid literal for int() with base 10: '1__0'") /\
  Py.int (String (ascii_of_nat 28) "3")
  = Raise (ValueError "invalid literal for int() with base 10: '\x1c3'") /\
  Py.int (String (ascii_of_nat 160) "3") = Ok 3 /\
  Py.int ("3" ++ String (ascii_of_nat 31) "")
  = Raise (ValueError "invalid literal for int() with base 10: '3\x1f'") /\
  Py.int "- 3"
  = Raise (ValueError "invalid literal for int() with base 10: '- 3'") /\
  Py.int "_1"
  = Raise (ValueError "invalid literal for int() with base 10: '_1'") /\
  Py.int "007" = Ok 7.
Proof. repeat split; reflexivity. Qed.

Example int_digit_cap :
  (exists k, Py.int (repeat_char 4300 "1") = Ok k) /\
  Py.int (" -" ++ repeat_char 4301 "0" ++ "x")
  = Raise (ValueError "Exceeds the limit (4300 digits) for integer string conversion: value has 4301 digits; use sys.set_int_max_str_digits() to increase the limit") /\
  (exists msg,
     Py.int (repeat_char 4400 "1" ++ "_") = Raise (ValueError msg) /\
     substring 0 43 msg = "invalid literal for int() with base 10: '11").
Proof.
  split; [eexists; vm_compute; reflexivity|].
  split; [vm_compute; reflexivity|].
  eexists. split; vm_compute; reflexivity.
Qed.

Example scenario_cat :
  word_frequency net_cat markup_free_get_text
    [("topic", "Cat"); ("n", "3")] empty_world
  = (Ok {| status := 200;
           body := JObj [("word_frequency",
                          JArr [JArr [JStr "the"; JInt 3];
                                JArr [JStr "cat"; JInt 2];
                                JArr [JStr "sat"; JInt 1]])] |},
     {| table := [{| id := 1; topic := "Cat";
                     top_words := "the: 3, cat: 2, sat: 1" |}];
        requests := [page_id_url "Cat"; full_content_url "6678"];
        error_log := [] |}).
Proof. reflexivity. Qed.

(** ** The tokens of a text *)

Lemma string_app_assoc (a b c : string) : (a ++ b) ++ c = a ++ b ++ c.
Proof. induction a as [|x a IH]; simpl; [reflexivity | now rewrite IH]. Qed.

Lemma string_app_nil_r (a : string) : a ++ "" = a.
Proof. induction a as [|x a IH]; simpl; [reflexivity | now rewrite IH]. Qed.

Lemma no_whitespace_append_char (tok : string) (c : ascii) :
  no_whitespace tok = true -> PyStr.is_space c = false ->
  no_whitespace (tok ++ String c "") = true.
Proof.
  unfold no_whitespace. intros Htok Hc.
  induction tok as [|a tok IH]; simpl in *.
  - now rewrite Hc.
  - apply andb_true_iff in Htok. destruct Htok as [Ha Htok].
    rewrite Ha. now apply IH.
Qed.

Lemma whitespace_delimited_space (c : ascii) (s : string)
    (toks : list string) :
  PyStr.is_space c = true ->
  whitespace_delimited s toks -> whitespace_delimited (String c s) toks.
Proof.
  intros Hc Hwd. destruct Hwd as [ws Hws | ws tok rest toks Hws Hne Htok Hb Hwd].
  - apply wd_blank. unfold all_space in *. simpl. now rewrite Hc.
  - change (String c (ws ++ tok ++ rest)) with (String c ws ++ tok ++ rest).
    apply wd_token; try assumption.
    unfold all_space in *. simpl. now rewrite Hc.
Qed.

(** The split reads the tokens of the text, in order. *)
Lemma split_from_delimited (s tok : string) :
  no_whitespace tok = true ->
  (tok = "" -> whitespace_delimited s (PyStr.split_from "" s)) /\
  (tok <> "" -> whitespace_delimited (tok ++ s) (PyStr.split_from tok s)).
Proof.
  revert tok. induction s as [|c s IH]; intros tok Htok.
  - split.
    + intros _. now apply wd_blank.
    + intros Hne. simpl. destruct tok as [|a tok]; [congruence|]. simpl.
      change (String a (tok ++ ""))
        with ("" ++ String a tok ++ "").
      apply wd_token; try reflexivity; try assumption.
      now apply wd_blank.
  - simpl. destruct (PyStr.is_space c) eqn:Hc.
    + destruct (IH "" eq_refl) as [Hblank _]. specialize (Hblank eq_refl).
      split.
      * intros _. simpl. now apply whitespace_delimited_space.
      * intros Hne. destruct tok as [|a tok]; [congruence|]. simpl.
        change (String a (tok ++ String c s))
          with ("" ++ String a tok ++ String c s).
        apply wd_token; try reflexivity; try assumption.
        now apply whitespace_delimited_space.
    + destruct (IH (tok ++ String c "")
                  (no_whitespace_append_char tok c Htok Hc)) as [_ Hread].
      assert (Hne' : tok ++ String c "" <> "")
        by (destruct tok; discriminate).
      specialize (Hread Hne'). rewrite string_app_assoc in Hread.
      simpl in Hread. split.
      * intros ->. exact Hread.
      * intros _. exact Hread.
Qed.

Lemma split_delimited (text : string) :
  whitespace_delimited text (PyStr.split text).
Proof.
  destruct (split_from_delimited text "" eq_refl) as [H _]. now apply H.
Qed.

Lemma split_from_skip_blank (ws s : string) :
  all_space ws = true ->
  PyStr.split_from "" (ws ++ s) = PyStr.split_from "" s.
Proof.
  unfold all_space. induction ws as [|c ws IH]; simpl; [reflexivity|].
  intros H. apply andb_true_iff in H. destruct H as [Hc Hws].
  rewrite Hc. now apply IH.
Qed.

Lemma split_from_read (tok acc s : string) :
  no_whitespace tok = true ->
  PyStr.split_from acc (tok ++ s) = PyStr.split_from (acc ++ tok) s.
Proof.
  unfold no_whitespace. revert acc.
  induction tok as [|c tok IH]; intros acc; simpl.
  - intros _. now rewrite string_app_nil_r.
  - intros H. apply andb_true_iff in H. destruct H as [Hc Htok].
    apply negb_true_iff in Hc. rewrite Hc, IH by assumption.
    now rewrite string_app_assoc.
Qed.

Lemma split_from_end (tok rest : string) :
  tok <> "" -> starts_blank rest = true ->
  PyStr.split_from tok rest = tok :: PyStr.split_from "" rest.
Proof.
  intros Hne Hb. destruct tok as [|a tok]; [congruence|].
  destruct rest as [|c rest]; simpl in *; [reflexivity|].
  now rewrite Hb.
Qed.

(** A text has one list of whitespace-delimited tokens, and the split
    returns it. *)
Lemma whitespace_delimited_split (text : string) (tokens : list string) :
  whitespace_delimited text tokens -> PyStr.split text = tokens.
Proof.
  unfold PyStr.split.
  induction 1 as [ws Hws | ws tok rest toks Hws Hne Htok Hb Hwd IH].
  - now apply split_whitespace.
  - rewrite split_from_skip_blank by assumption.
    rewrite split_from_read by assumption. simpl.
    rewrite split_from_end by assumption. now rewrite IH.
Qed.

Lemma serialize_top_words_pairs (r : list (string * Z)) :
  serialize_top_words r = word_count_pairs r.
Proof.
  unfold serialize_top_words.
  induction r as [|[word count] r IH]; [reflexivity|].
  destruct r as [|p r]; [reflexivity|].
  change (word_count_pairs ((word, count) :: p :: r))
    with ((word ++ ": " ++ NilZero.string_of_int (Z.to_int count))
          ++ ", " ++ word_count_pairs (p :: r)).
  rewrite <- IH. reflexivity.
Qed.

(** * Main results *)

(** The ranking of the tokens that [PyStr.split] reads. *)
Lemma analyze_word_frequency_ranking (text : string) (n : Z) :
  let tokens := PyStr.split text in
  let r := analyze_word_frequency text n in
  NoDup (map fst r) /\
  (forall w c, In (w, c) r -> In w tokens /\ c = occurrences w tokens) /\
  length r = Nat.min (Z.to_nat n) (distinct_count tokens) /\
  (forall i j a b, (i < j)%nat ->
     nth_error r i = Some a -> nth_error r j = Some b ->
     snd b <= snd a /\
     (snd a = snd b ->
      (first_index (fst a) tokens < first_index (fst b) tokens)%nat)) /\
  (forall w a, In w tokens -> ~ In w (map fst r) -> In a r ->
     occurrences w tokens <= snd a /\
     (snd a = occurrences w tokens ->
      (first_index (fst a) tokens < first_index w tokens)%nat)).
Proof.
  intros tokens r.
  set (full := Counter.sorted_desc (Counter.of_list tokens)).
  assert (Hr : r = firstn (Z.to_nat n) full) by reflexivity.
  assert (Hsplit : full = (r ++ skipn (Z.to_nat n) full)%list)
    by (rewrite Hr; now rewrite firstn_skipn).
  pose proof (ranking_sorted tokens) as Hsorted. fold full in Hsorted.
  pose proof (ranking_NoDup tokens) as Hnd. fold full in Hnd.
  assert (Hsub : forall a, In a r -> In a full)
    by (intros a Ha; rewrite Hsplit; apply in_or_app; now left).
  assert (Hleft : StronglySorted (ranks_before tokens) r)
    by (rewrite Hsplit in Hsorted;
        now apply StronglySorted_app_left in Hsorted).
  split; [|split; [|split; [|split]]].
  - rewrite Hsplit, map_app in Hnd. now apply NoDup_app_remove_r in Hnd.
  - intros w c Hin. apply (ranking_In tokens w c). now apply Hsub.
  - apply analyze_word_frequency_length.
  - intros i j a b Hij Hi Hj.
    assert (Hab : ranks_before tokens a b)
      by (eapply StronglySorted_nth_error; eauto).
    unfold ranks_before in Hab. lia.
  - intros w a Hw Hout Ha.
    assert (Hin : In (w, occurrences w tokens) (skipn (Z.to_nat n) full)).
    { assert (Hfull : In (w, occurrences w tokens) full)
        by (apply ranking_In; tauto).
      rewrite Hsplit in Hfull. apply in_app_or in Hfull.
      destruct Hfull as [Hfull|Hfull]; [|assumption].
      exfalso. apply Hout. now apply (in_map fst) in Hfull. }
    rewrite Hsplit in Hsorted.
    assert (Hab : ranks_before tokens a (w, occurrences w tokens))
      by (eapply StronglySorted_app_cross; eauto).
    unfold ranks_before in Hab. simpl in Hab. lia.
Qed.

(** C1. For every text and positive [n]: the text has exactly one list
    of whitespace-delimited tokens (maximal runs of non-whitespace
    characters, in reading order), and [analyze_word_frequency] returns
    the [n] highest-count tokens of that list, each once and with its
    number of occurrences ([min n d] of them when the text has [d]
    distinct tokens), sorted by descending count; two returned tokens of
    equal count are in the order of their first appearance in the token
    stream, and a token that is left out has a count no larger than any
    returned one, and at an equal count a later first appearance. *)
Theorem analyze_word_frequency_top_n (text : string) (n : Z) :
  0 < n ->
  exists tokens,
    whitespace_delimited text tokens /\
    (forall others, whitespace_delimited text others -> others = tokens) /\
    let r := analyze_word_frequency text n in
    NoDup (map fst r) /\
    (forall w c, In (w, c) r -> In w tokens /\ c = occurrences w tokens) /\
    length r = Nat.min (Z.to_nat n) (distinct_count tokens) /\
    (forall i j a b, (i < j)%nat ->
       nth_error r i = Some a -> nth_error r j = Some b ->
       snd b <= snd a /\
       (snd a = snd b ->
        (first_index (fst a) tokens < first_index (fst b) tokens)%nat)) /\
    (forall w a, In w tokens -> ~ In w (map fst r) -> In a r ->
       occurrences w tokens <= snd a /\
       (snd a = occurrences w tokens ->
        (first_index (fst a) tokens < first_index w tokens)%nat)).
Proof.
  intros _. exists (PyStr.split text).
  split; [apply split_delimited|].
  split.
  - intros others Ho. symmetry. now apply whitespace_delimited_split.
  - apply analyze_word_frequency_ranking.
Qed.

Lemma analyze_word_frequency_top_n_witness :
  0 < 3 /\
  analyze_word_frequency "the cat sat on the mat the cat ran" 3
  = [("the", 3); ("cat", 2); ("sat", 1)] /\
  analyze_word_frequency "b  a, A b" 3
  = [("b", 2); ("a,", 1); ("A", 1)] /\
  exists tokens,
    whitespace_delimited "the cat sat on the mat the cat ran" tokens /\
    (forall others,
       whitespace_delimited "the cat sat on the mat the cat ran" others ->
       others = tokens) /\
    let r := analyze_word_frequency "the cat sat on the mat the cat ran" 3 in
    NoDup (map fst r) /\
    (forall w c, In (w, c) r -> In w tokens /\ c = occurrences w tokens) /\
    length r = Nat.min (Z.to_nat 3) (distinct_count tokens) /\
    (forall i j a b, (i < j)%nat ->
       nth_error r i = Some a -> nth_error r j = Some b ->
       snd b <= snd a /\
       (snd a = snd b ->
        (first_index (fst a) tokens < first_index (fst b) tokens)%nat)) /\
    (forall w a, In w tokens -> ~ In w (map fst r) -> In a r ->
       occurrences w tokens <= snd a /\
       (snd a = occurrences w tokens ->
        (first_index (fst a) tokens < first_index w tokens)%nat)).
Proof.
  assert (H : 0 < 3) by reflexivity.
  split; [exact H|]. split; [reflexivity|]. split; [reflexivity|].
  exact (analyze_word_frequency_top_n
           "the cat sat on the mat the cat ran" 3 H).
Defined.

(** C2. When a request is answered 200, it is a request that fully
    succeeded with some positive [n] and cleaned text [text]; the body
    is the object whose 'word_frequency' member is the array of the
    [word, count] pairs of a list that has [min n d] elements, [d] being
    the number of distinct whitespace-delimited tokens of [text]: never
    more than [n], and all [d] of them when [d < n]. *)
Theorem word_frequency_response_length (net : string -> http_result)
    (soup_get_text : json -> result string)
    (args : list (string * string)) (w w' : world) (resp : http_response) :
  word_frequency net soup_get_text args w = (Ok resp, w') ->
  status resp = 200 ->
  exists topic0 n text w1 tokens r,
    request_succeeds net soup_get_text args w topic0 n text w1 /\
    0 < n /\
    whitespace_delimited text tokens /\
    body resp
    = JObj [("word_frequency",
             JArr (map (fun p => JArr [JStr (fst p); JInt (snd p)]) r))] /\
    length r = Nat.min (Z.to_nat n) (distinct_count tokens) /\
    (length r <= Z.to_nat n)%nat /\
    ((distinct_count tokens < Z.to_nat n)%nat ->
     length r = distinct_count tokens).
Proof.
  intros Hrun H200.
  destruct (word_frequency_200_inv _ _ _ _ _ _ Hrun H200)
    as (topic0 & n & text & w1 & Hs & _ & -> & _).
  exists topic0, n, text, w1, (PyStr.split text),
         (analyze_word_frequency text n).
  pose proof (analyze_word_frequency_length text n) as Hlen.
  split; [exact Hs|].
  split; [destruct Hs as [(_ & _ & ns & _ & _ & _ & Hpos) _ _]; exact Hpos|].
  split; [apply split_delimited|].
  split; [reflexivity|].
  split; [exact Hlen|].
  split; lia.
Qed.

Lemma word_frequency_response_length_witness :
  let args := [("topic", "Cat"); ("n", "3")] in
  let resp :=
    {| status := 200;
       body := JObj [("word_frequency",
                      JArr [JArr [JStr "the"; JInt 3];
                            JArr [JStr "cat"; JInt 2];
                            JArr [JStr "sat"; JInt 1]])] |} in
  let w' :=
    {| table := [{| id := 1; topic := "Cat";
                    top_words := "the: 3, cat: 2, sat: 1" |}];
       requests := [page_id_url "Cat"; full_content_url "6678"];
       error_log := [] |} in
  word_frequency net_cat markup_free_get_text args empty_world
  = (Ok resp, w') /\
  status resp = 200 /\
  exists topic0 n text w1 tokens r,
    request_succeeds net_cat markup_free_get_text args empty_world
                     topic0 n text w1 /\
    0 < n /\
    whitespace_delimited text tokens /\
    body resp
    = JObj [("word_frequency",
             JArr (map (fun p => JArr [JStr (fst p); JInt (snd p)]) r))] /\
    length r = Nat.min (Z.to_nat n) (distinct_count tokens) /\
    (length r <= Z.to_nat n)%nat /\
    ((distinct_count tokens < Z.to_nat n)%nat ->
     length r = distinct_count tokens).
Proof.
  intros args resp w'.
  assert (Hrun : word_frequency net_cat markup_free_get_text args empty_world
                 = (Ok resp, w')) by reflexivity.
  split; [exact Hrun|]. split; [reflexivity|].
  exact (word_frequency_response_length net_cat markup_free_get_text args
           empty_world w' resp Hrun eq_refl).
Defined.

(** C3. A history entry is persisted exactly when the request fully
    succeeds (valid parameters, fetched data with 'query' and 'pages', a
    first page with a title and an extract, a non-empty cleaned text),
    which is exactly when the answer is a 200; on the 400, 404 and 500
    answers, and when an exception escapes the handler, the table is
    unchanged. *)
Theorem history_persisted_iff_success (net : string -> http_result)
    (soup_get_text : json -> result string)
    (args : list (string * string)) (w : world) :
  let succeeds := exists topic0 n text w1,
      request_succeeds net soup_get_text args w topic0 n text w1 in
  let res := fst (word_frequency net soup_get_text args w) in
  let w' := snd (word_frequency net soup_get_text args w) in
  (succeeds <-> exists row, table w' = (table w ++ [row])%list) /\
  (succeeds <-> exists resp, res = Ok resp /\ status resp = 200) /\
  (~ succeeds -> table w' = table w) /\
  (forall resp, res = Ok resp ->
     status resp = 400 \/ status resp = 404 \/ status resp = 500 ->
     table w' = table w) /\
  (forall e, res = Raise e -> table w' = table w) /\
  (forall resp, res = Ok resp ->
     status resp = 200 \/ status resp = 400 \/
     status resp = 404 \/ status resp = 500).
Proof.
  intros succeeds res w'.
  assert (Hgrow : forall (rows : list SearchHistory) row,
             rows <> (rows ++ [row])%list).
  { intros rows row H. apply (f_equal (@length _)) in H.
    rewrite length_app in H. simpl in H. lia. }
  assert (Hyes : succeeds ->
            (exists row, table w' = (table w ++ [row])%list) /\
            (exists resp, res = Ok resp /\ status resp = 200)).
  { intros (topic0 & n & text & w1 & Hs).
    pose proof (word_frequency_success _ _ _ _ _ _ _ _ Hs) as Hok.
    assert (Htab : table w1 = table w).
    { destruct Hs as [_ (data & _ & _ & Hf & _) _].
      pose proof (keeps_table_fetch_wikipedia_data net topic0 w) as Htab.
      now rewrite Hf in Htab. }
    subst res w'. rewrite Hok. simpl. rewrite Htab. split; eauto. }
  assert (Hno : ~ succeeds ->
            table w' = table w /\
            match res with
            | Ok resp =>
                status resp = 400 \/ status resp = 404 \/ status resp = 500
            | Raise _ => True
            end).
  { intros Hn.
    destruct (word_frequency_cases net soup_get_text args w)
      as [Hs | (res0 & w0 & Hrun & Htab & Hst)]; [contradiction|].
    subst res w'. rewrite Hrun. simpl. tauto. }
  assert (Hdec : succeeds \/ ~ succeeds).
  { destruct (word_frequency_cases net soup_get_text args w)
      as [Hs | (res0 & w0 & Hrun & Htab & Hst)]; [now left|].
    right. intros Hs. destruct (Hyes Hs) as [_ (resp & Hres & H200)].
    subst res. rewrite Hrun in Hres. simpl in Hres. subst res0. lia. }
  split; [|split; [|split; [|split; [|split]]]].
  - split; [intros Hs; now apply Hyes|].
    intros [row Hrow]. destruct Hdec as [Hs|Hn]; [assumption|].
    destruct (Hno Hn) as [Htab _]. rewrite Htab in Hrow.
    now apply Hgrow in Hrow.
  - split; [intros Hs; now apply Hyes|].
    intros (resp & Hres & H200). destruct Hdec as [Hs|Hn]; [assumption|].
    destruct (Hno Hn) as [_ Hst]. rewrite Hres in Hst. lia.
  - intros Hn. now apply Hno.
  - intros resp Hres Hst. destruct Hdec as [Hs|Hn]; [|now apply Hno].
    destruct (Hyes Hs) as [_ (resp' & Hres' & H200)].
    rewrite Hres in Hres'. injection Hres' as <-. lia.
  - intros e Hres. destruct Hdec as [Hs|Hn]; [|now apply Hno].
    destruct (Hyes Hs) as [_ (resp' & Hres' & _)]. congruence.
  - intros resp Hres. destruct Hdec as [Hs|Hn].
    + destruct (Hyes Hs) as [_ (resp' & Hres' & H200)].
      rewrite Hres in Hres'. injection Hres' as <-. now left.
    + destruct (Hno Hn) as [_ Hst]. rewrite Hres in Hst. tauto.
Qed.

(** C4. The failing input: the upstream reports that the topic has no
    page the way the query API does, listing the title under page id -1
    with a 'missing' marker in the lookup answer and answering the
    content request for page id -1 without a title. The data has 'query'
    and 'pages', so the 404 branch 'Invalid topic. Wikipedia article not
    found.' of line 102 is passed over and the missing-title check of
    line 107 answers 500; the answer is not the 404 the claim and the
    code's own message promise. No history entry is created. *)
Lemma unknown_topic_not_404 :
  let out := word_frequency net_missing markup_free_get_text
               [("topic", "Zzyzx123"); ("n", "5")] one_row_world in
  out
  = (Ok {| status := 500;
           body := JObj [("error",
                          JStr "Failed to retrieve article details from Wikipedia.")] |},
     {| table := table one_row_world;
        requests := [page_id_url "Zzyzx123"; full_content_url "-1"];
        error_log := [] |})
  /\ ~ (exists resp, fst out = Ok resp /\ status resp = 404).
Proof.
  intros out.
  assert (H : out
              = (Ok {| status := 500;
                       body := JObj [("error",
                                      JStr "Failed to retrieve article details from Wikipedia.")] |},
                 {| table := table one_row_world;
                    requests := [page_id_url "Zzyzx123"; full_content_url "-1"];
                    error_log := [] |}))
    by (vm_compute; reflexivity).
  split; [exact H|].
  intros (resp & Hresp & H404). rewrite H in Hresp. simpl in Hresp.
  injection Hresp as <-. discriminate H404.
Qed.

(** C5. After a request answered 200, whose body is the array of the
    [word, count] pairs of a list [r], the table holds exactly one more
    entry than before, at its end; the entry's topic is the request's
    topic parameter and its top_words is the text made of the
    'word: count' renderings of the pairs of [r], in the same order,
    separated by ', '; and /search_history, which listed the earlier
    entries before, now lists them followed by the new one. *)
Theorem history_round_trip (net : string -> http_result)
    (soup_get_text : json -> result string)
    (args : list (string * string)) (w w' : world) (resp : http_response) :
  word_frequency net soup_get_text args w = (Ok resp, w') ->
  status resp = 200 ->
  exists topic0 r e,
    args_get "topic" args = Some topic0 /\
    body resp
    = JObj [("word_frequency",
             JArr (map (fun p => JArr [JStr (fst p); JInt (snd p)]) r))] /\
    topic e = topic0 /\
    top_words e = word_count_pairs r /\
    table w' = (table w ++ [e])%list /\
    fst (search_history w)
    = Ok {| status := 200;
            body := JObj [("search_history",
                           JArr (map (fun x =>
                                        JObj [("topic", JStr (topic x));
                                              ("top_words", JStr (top_words x))])
                                     (table w)))] |} /\
    fst (search_history w')
    = Ok {| status := 200;
            body := JObj [("search_history",
                           JArr (map (fun x =>
                                        JObj [("topic", JStr (topic x));
                                              ("top_words", JStr (top_words x))])
                                     (table w ++ [e])))] |}.
Proof.
  intros Hrun H200.
  destruct (word_frequency_200_inv _ _ _ _ _ _ Hrun H200)
    as (topic0 & n & text & w1 & Hs & Htab & -> & ->).
  exists topic0, (analyze_word_frequency text n),
         (new_entry (table w1) topic0 (analyze_word_frequency text n)).
  destruct Hs as [(Ht & _) _ _].
  split; [exact Ht|]. split; [reflexivity|]. split; [reflexivity|].
  split; [apply serialize_top_words_pairs|].
  unfold search_history, query_all, bind, ret. simpl. rewrite Htab.
  repeat split.
Qed.

Lemma history_round_trip_witness :
  let args := [("topic", "Cat"); ("n", "3")] in
  let resp :=
    {| status := 200;
       body := JObj [("word_frequency",
                      JArr [JArr [JStr "the"; JInt 3];
                            JArr [JStr "cat"; JInt 2];
                            JArr [JStr "sat"; JInt 1]])] |} in
  let w' :=
    {| table := [{| id := 1; topic := "Cat";
                    top_words := "the: 3, cat: 2, sat: 1" |};
                 {| id := 2; topic := "Cat";
                    top_words := "the: 3, cat: 2, sat: 1" |}];
       requests := [page_id_url "Cat"; full_content_url "6678"];
       error_log := [] |} in
  word_frequency net_cat markup_free_get_text args one_row_world
  = (Ok resp, w') /\
  status resp = 200 /\
  word_count_pairs [("the", 3); ("cat", 2); ("sat", 1)]
  = "the: 3, cat: 2, sat: 1" /\
  fst (search_history w')
  = Ok {| status := 200;
          body := JObj [("search_history",
                         JArr [JObj [("topic", JStr "Cat");
                                     ("top_words",
                                      JStr "the: 3, cat: 2, sat: 1")];
                               JObj [("topic", JStr "Cat");
                                     ("top_words",
                                      JStr "the: 3, cat: 2, sat: 1")]])] |} /\
  exists topic0 r e,
    args_get "topic" args = Some topic0 /\
    body resp
    = JObj [("word_frequency",
             JArr (map (fun p => JArr [JStr (fst p); JInt (snd p)]) r))] /\
    topic e = topic0 /\
    top_words e = word_count_pairs r /\
    table w' = (table one_row_world ++ [e])%list /\
    fst (search_history one_row_world)
    = Ok {| status := 200;
            body := JObj [("search_history",
                           JArr (map (fun x =>
                                        JObj [("topic", JStr (topic x));
                                              ("top_words", JStr (top_words x))])
                                     (table one_row_world)))] |} /\
    fst (search_history w')
    = Ok {| status := 200;
            body := JObj [("search_history",
                           JArr (map (fun x =>
                                        JObj [("topic", JStr (topic x));
                                              ("top_words", JStr (top_words x))])
                                     (table one_row_world ++ [e])))] |}.
Proof.
  intros args resp w'.
  assert (Hrun : word_frequency net_cat markup_free_get_text args
                   one_row_world = (Ok resp, w')) by reflexivity.
  split; [exact Hrun|]. do 3 (split; [reflexivity|]).
  exact (history_round_trip net_cat markup_free_get_text args
           one_row_world w' resp Hrun eq_refl).
Defined.

(** C6. When topic or n is missing (absent or empty), or n is not the
    text of an integer, or is the text of zero or of a negative integer,
    the handler answers 400 and leaves the world as it was: no upstream
    request is made and nothing is persisted. *)
Theorem invalid_parameters_400 (net : string -> http_result)
    (soup_get_text : json -> result string)
    (args : list (string * string)) (w : world) :
  args_get "topic" args = None \/ args_get "topic" args = Some "" \/
  args_get "n" args = None \/ args_get "n" args = Some "" \/
  (exists ns, args_get "n" args = Some ns /\
     ((exists e, Py.int ns = Raise e) \/
      (exists k, Py.int ns = Ok k /\ k <= 0))) ->
  exists resp,
    word_frequency net soup_get_text args w = (Ok resp, w) /\
    status resp = 400 /\
    (exists msg, body resp = JObj [("error", JStr msg)]) /\
    requests (snd (word_frequency net soup_get_text args w)) = requests w /\
    table (snd (word_frequency net soup_get_text args w)) = table w.
Proof.
  intros H.
  assert (Hgoal : exists resp,
            word_frequency net soup_get_text args w = (Ok resp, w) /\
            status resp = 400 /\
            (exists msg, body resp = JObj [("error", JStr msg)])).
  { unfold word_frequency.
    destruct (args_get "topic" args) as [topic0|] eqn:Et;
      [|eexists; repeat split; eexists; reflexivity].
    destruct (args_get "n" args) as [ns|] eqn:En;
      [|eexists; repeat split; eexists; reflexivity].
    destruct (PyStr.is_empty topic0) eqn:Hte;
      [eexists; repeat split; eexists; reflexivity|].
    destruct (PyStr.is_empty ns) eqn:Hne;
      [eexists; repeat split; eexists; reflexivity|].
    cbn [orb]. run.
    destruct H as [H|[H|[H|[H|(ns' & Hns & H)]]]]; try discriminate;
      try (injection H as ->; discriminate).
    injection Hns as <-.
    destruct H as [(e & He) | (k & Hk & Hle)].
    - rewrite He, (int_raises_ValueError _ _ He).
      eexists; repeat split; eexists; reflexivity.
    - rewrite Hk. apply Z.leb_le in Hle. rewrite Hle. cbn [is_ValueError].
      eexists; repeat split; eexists; reflexivity. }
  destruct Hgoal as (resp & Hrun & H400 & Hbody).
  exists resp. rewrite Hrun. repeat split; assumption.
Qed.

Lemma invalid_parameters_400_witness :
  let zero := [("topic", "Cat"); ("n", "0")] in
  let separator := [("topic", "Cat"); ("n", String (ascii_of_nat 28) "3")] in
  let hypothesis := fun args =>
    args_get "topic" args = None \/ args_get "topic" args = Some "" \/
    args_get "n" args = None \/ args_get "n" args = Some "" \/
    (exists ns, args_get "n" args = Some ns /\
       ((exists e, Py.int ns = Raise e) \/
        (exists k, Py.int ns = Ok k /\ k <= 0))) in
  let conclusion := fun args =>
    exists resp,
      word_frequency net_cat markup_free_get_text args one_row_world
      = (Ok resp, one_row_world) /\
      status resp = 400 /\
      (exists msg, body resp = JObj [("error", JStr msg)]) /\
      requests (snd (word_frequency net_cat markup_free_get_text args
                       one_row_world)) = requests one_row_world /\
      table (snd (word_frequency net_cat markup_free_get_text args
                    one_row_world)) = table one_row_world in
  (hypothesis zero /\ conclusion zero /\
   word_frequency net_cat markup_free_get_text zero one_row_world
   = (Ok {| status := 400;
            body := JObj [("error",
                           JStr "Invalid value for n. Invalid value for n. Please provide a positive integer.")] |},
      one_row_world)) /\
  (hypothesis separator /\ conclusion separator /\
   Py.int (String (ascii_of_nat 28) "3")
   = Raise (ValueError "invalid literal for int() with base 10: '\x1c3'") /\
   word_frequency net_cat markup_free_get_text separator one_row_world
   = (Ok {| status := 400;
            body := JObj [("error",
                           JStr "Invalid value for n. invalid literal for int() with base 10: '\x1c3'")] |},
      one_row_world)).
Proof.
  intros zero separator hypothesis conclusion.
  assert (Hzero : hypothesis zero).
  { do 4 right. exists "0". split; [reflexivity|]. right.
    exists 0. split; [reflexivity | intros H; discriminate H]. }
  assert (Hsep : hypothesis separator).
  { do 4 right. exists (String (ascii_of_nat 28) "3").
    split; [reflexivity|]. left. eexists. reflexivity. }
  split.
  - split; [exact Hzero|]. split; [|reflexivity].
    exact (invalid_parameters_400 net_cat markup_free_get_text zero
             one_row_world Hzero).
  - split; [exact Hsep|]. split; [|split; reflexivity].
    exact (invalid_parameters_400 net_cat markup_free_get_text separator
             one_row_world Hsep).
Defined.

(** C7. GET /search_history always answers 200 with a body that lists
    every row of the table, each as its topic and top_words fields, in
    table order; and table order is insertion order: after any run of
    saves the listing is the earlier listing followed by the saved
    entries, in the order they were saved. *)
Theorem search_history_lists_all :
  (forall w,
     search_history w
     = (Ok {| status := 200;
              body := JObj [("search_history",
                             JArr (map (fun e =>
                                          JObj [("topic", JStr (topic e));
                                                ("top_words", JStr (top_words e))])
                                       (table w)))] |},
        w)) /\
  (forall topic0 r w,
     table (snd (save_search_history topic0 r w))
     = (table w ++ [{| id := next_id (table w);
                       topic := topic0;
                       top_words := serialize_top_words r |}])%list) /\
  (forall saves w,
     listed (table (run_saves saves w))
     = (listed (table w)
        ++ map (fun s => (fst s, serialize_top_words (snd s))) saves)%list) /\
  (forall saves,
     fst (search_history (run_saves saves empty_world))
     = Ok {| status := 200;
             body := JObj [("search_history",
                            JArr (map (fun s =>
                                         JObj [("topic", JStr (fst s));
                                               ("top_words",
                                                JStr (serialize_top_words (snd s)))])
                                      saves))] |}).
Proof.
  split; [reflexivity|]. split; [reflexivity|].
  split; [apply run_saves_listed|].
  intros saves. unfold search_history, query_all, bind, ret. simpl.
  unfold search_history_body.
  rewrite json_of_listed, run_saves_listed. simpl.
  now rewrite map_map.
Qed.

(** C8. A read of /search_history leaves the world as it was, and a
    second read, made when the table is what the first read left, returns
    the same answer as the first. *)
Theorem search_history_read_twice (w w2 : world) :
  table w2 = table (snd (search_history w)) ->
  fst (search_history w2) = fst (search_history w) /\
  snd (search_history w) = w /\
  snd (search_history w2) = w2.
Proof.
  unfold search_history, query_all, bind, ret. simpl.
  intros ->. repeat split.
Qed.

Lemma search_history_read_twice_witness :
  table (snd (search_history one_row_world))
  = table (snd (search_history one_row_world)) /\
  fst (search_history (snd (search_history one_row_world)))
  = fst (search_history one_row_world) /\
  snd (search_history one_row_world) = one_row_world /\
  snd (search_history (snd (search_history one_row_world)))
  = snd (search_history one_row_world).
Proof.
  split; [reflexivity|].
  exact (search_history_read_twice one_row_world
           (snd (search_history one_row_world)) eq_refl).
Defined.

(** C9. When a request fully succeeds with a cleaned text that is not
    empty but holds only whitespace characters, the emptiness check lets
    it through, the answer is a 200 with an empty word_frequency list, and
    the entry that is persisted has the empty string as top_words. *)
Theorem whitespace_only_text_persisted (net : string -> http_result)
    (soup_get_text : json -> result string)
    (args : list (string * string)) (w w1 : world)
    (topic0 : string) (n : Z) (text : string) :
  request_succeeds net soup_get_text args w topic0 n text w1 ->
  forallb PyStr.is_space (list_ascii_of_string text) = true ->
  PyStr.is_empty text = false /\
  word_frequency net soup_get_text args w
  = (Ok {| status := 200; body := JObj [("word_frequency", JArr [])] |},
     {| table := table w1 ++ [{| id := next_id (table w1);
                                 topic := topic0;
                                 top_words := "" |}];
        requests := requests w1;
        error_log := error_log w1 |}) /\
  table w1 = table w.
Proof.
  intros Hs Hws.
  assert (Hr : analyze_word_frequency text n = []).
  { unfold analyze_word_frequency. rewrite (split_whitespace text Hws).
    unfold Counter.most_common. simpl. now rewrite firstn_nil. }
  pose proof (word_frequency_success _ _ _ _ _ _ _ _ Hs) as Hok.
  rewrite Hr in Hok.
  split; [exact (rs_text _ _ _ _ _ _ _ _ Hs)|]. split; [exact Hok|].
  destruct Hs as [_ (data & _ & _ & Hf & _) _].
  pose proof (keeps_table_fetch_wikipedia_data net topic0 w) as Htab.
  now rewrite Hf in Htab.
Qed.

Lemma whitespace_only_text_persisted_witness :
  let args := [("topic", "Blank"); ("n", "5")] in
  let w1 := {| table := [];
               requests := [page_id_url "Blank"; full_content_url "42"];
               error_log := [] |} in
  request_succeeds net_blank markup_free_get_text args empty_world
                   "Blank" 5 " " w1 /\
  forallb PyStr.is_space (list_ascii_of_string " ") = true /\
  PyStr.is_empty " " = false /\
  word_frequency net_blank markup_free_get_text args empty_world
  = (Ok {| status := 200; body := JObj [("word_frequency", JArr [])] |},
     {| table := table w1 ++ [{| id := next_id (table w1);
                                 topic := "Blank";
                                 top_words := "" |}];
        requests := requests w1;
        error_log := error_log w1 |}) /\
  table w1 = table empty_world.
Proof.
  intros args w1.
  assert (Hs : request_succeeds net_blank markup_free_get_text args
                 empty_world "Blank" 5 " " w1).
  { split.
    - split; [reflexivity|]. split; [reflexivity|].
      exists "5". repeat split; reflexivity.
    - eexists _, _, _. repeat split; reflexivity.
    - reflexivity. }
  split; [exact Hs|]. split; [reflexivity|].
  exact (whitespace_only_text_persisted net_blank markup_free_get_text args
           empty_world w1 "Blank" 5 " " Hs eq_refl).
Defined.

(** C10. When the parameters are valid and the fetched data has 'query'
    and 'pages' but its first page object has a 'title' key and no
    'extract' key, the indexing [...['extract']] of line 111 raises a
    [KeyError] that nothing catches: the handler produces none of its
    400, 404 and 500 answers (and persists nothing). *)
Theorem missing_extract_raises_KeyError (net : string -> http_result)
    (soup_get_text : json -> result string)
    (args : list (string * string)) (w w1 : world)
    (topic0 : string) (n : Z) (data title : json)
    (fields : list (string * json)) :
  valid_request args topic0 n ->
  fetch_wikipedia_data net topic0 w = (Ok data, w1) ->
  article_not_found data = Ok false ->
  first_page data = Ok (JObj fields) ->
  Py.lookup "title" fields = Some title ->
  Py.lookup "extract" fields = None ->
  word_frequency net soup_get_text args w = (Raise (KeyError "extract"), w1)
  /\ table w1 = table w.
Proof.
  intros (Ht & Hte & ns & Hn & Hne & Hi & Hpos) Hf Hnf Hp Htitle Hex.
  split.
  - unfold word_frequency. rewrite Ht, Hn, Hte, Hne.
    run. rewrite Hi.
    destruct (n <=? 0) eqn:Hle; [apply Z.leb_le in Hle; lia|].
    cbn [orb]. rewrite Hf, Hnf.
    destruct (first_page_id _ _ Hp) as [page_id Hid].
    rewrite Hid, !(first_page_steps data page_id Hid).
    unfold rbind. rewrite Hp. unfold Py.contains, Py.getitem.
    now rewrite Htitle, Hex.
  - pose proof (keeps_table_fetch_wikipedia_data net topic0 w) as Htab.
    now rewrite Hf in Htab.
Qed.

Lemma missing_extract_raises_KeyError_witness :
  let args := [("topic", "Stub"); ("n", "2")] in
  let fields := [("pageid", JInt 7); ("ns", JInt 0); ("title", JStr "Stub")] in
  let data := JObj [("batchcomplete", JStr "");
                    ("query", JObj [("pages", JObj [("7", JObj fields)])])] in
  let w1 := {| table := table one_row_world;
               requests := [page_id_url "Stub"; full_content_url "7"];
               error_log := [] |} in
  valid_request args "Stub" 2 /\
  fetch_wikipedia_data net_no_extract "Stub" one_row_world = (Ok data, w1) /\
  article_not_found data = Ok false /\
  first_page data = Ok (JObj fields) /\
  Py.lookup "title" fields = Some (JStr "Stub") /\
  Py.lookup "extract" fields = None /\
  word_frequency net_no_extract markup_free_get_text args one_row_world
  = (Raise (KeyError "extract"), w1)
  /\ table w1 = table one_row_world.
Proof.
  intros args fields data w1.
  assert (Hv : valid_request args "Stub" 2).
  { split; [reflexivity|]. split; [reflexivity|].
    exists "2". repeat split; reflexivity. }
  assert (Hf : fetch_wikipedia_data net_no_extract "Stub" one_row_world
               = (Ok data, w1)) by reflexivity.
  do 6 (split; [first [exact Hv | exact Hf | reflexivity]|]).
  exact (missing_extract_raises_KeyError net_no_extract markup_free_get_text
           args one_row_world w1 "Stub" 2 data (JStr "Stub") fields
           Hv Hf eq_refl eq_refl eq_refl eq_refl).
Defined.

(** * Further properties of the code *)

(** ** fetch_wikipedia_data *)

Lemma after_calls_two (u1 u2 : string) (logged : list log_record)
    (w : world) :
  {| table := table w;
     requests := (requests w ++ [u1]) ++ [u2];
     error_log := error_log w ++ logged |}
  = after_calls [u1; u2] logged w.
Proof. unfold after_calls. now rewrite <- app_assoc. Qed.

Lemma after_calls_silent (urls : list string) (w : world) :
  {| table := table w;
     requests := requests w ++ urls;
     error_log := error_log w |}
  = after_calls urls [] w.
Proof. unfold after_calls. now rewrite app_nil_r. Qed.

Lemma getitem_exn (v : json) (key : string) (e : exn) :
  Py.getitem v key = Raise e -> e = KeyError key \/ e = TypeError.
Proof.
  unfold Py.getitem. destruct v; try (intros H; injection H as <-; tauto).
  destruct (Py.lookup key items); [discriminate|].
  intros H; injection H as <-; tauto.
Qed.

Lemma lookup_page_id_exn (data : json) (e : exn) :
  lookup_page_id data = Raise e ->
  (exists key, e = KeyError key) \/ e = TypeError \/
  e = AttributeError \/ e = IndexError.
Proof.
  unfold lookup_page_id, rbind.
  destruct (Py.getitem data "query") as [q|e1] eqn:E1.
  - destruct (Py.getitem q "pages") as [pages|e2] eqn:E2.
    + destruct pages; simpl; try (intros H; injection H as <-; tauto).
      destruct items; simpl; [|discriminate].
      intros H; injection H as <-; tauto.
    + intros H; injection H as <-.
      destruct (getitem_exn _ _ _ E2) as [->| ->]; eauto.
  - intros H; injection H as <-.
    destruct (getitem_exn _ _ _ E1) as [->| ->]; eauto.
Qed.

(** The four ways a fetch can go, by what the two upstream calls meet. *)
Lemma fetch_wikipedia_data_run (net : string -> http_result)
    (topic0 : string) (w : world) :
  fetch_wikipedia_data net topic0 w
  = match usable (net (page_id_url topic0)) with
    | None => (Ok JNull, after_calls [page_id_url topic0] [LogFetchError] w)
    | Some data =>
        match lookup_page_id data with
        | Raise e => (Raise e, after_calls [page_id_url topic0] [] w)
        | Ok page_id =>
            match usable (net (full_content_url page_id)) with
            | None =>
                (Ok JNull,
                 after_calls [page_id_url topic0; full_content_url page_id]
                             [LogFetchError] w)
            | Some content =>
                (Ok content,
                 after_calls [page_id_url topic0; full_content_url page_id]
                             [] w)
            end
        end
    end.
Proof.
  unfold fetch_wikipedia_data, requests_get, raise_for_status, response_json,
         usable.
  run.
  destruct (net (page_id_url topic0)) as [|code [data|]]; cbv beta iota zeta;
    try reflexivity;
    (destruct ((400 <=? code) && (code <? 600)); cbv beta iota zeta;
     [reflexivity|]); [|reflexivity].
  fold (lookup_page_id data).
  destruct (lookup_page_id data) as [page_id|e] eqn:Hid; cbv beta iota zeta.
  - cbn [table requests error_log].
    destruct (net (full_content_url page_id)) as [|code2 [content|]];
      cbv beta iota zeta;
      try (destruct ((400 <=? code2) && (code2 <? 600)); cbv beta iota zeta);
      cbn [is_RequestException table requests error_log];
      rewrite ?after_calls_two; try reflexivity;
      rewrite <- (app_nil_r (error_log w)) at 1; now rewrite after_calls_two.
  - destruct (lookup_page_id_exn _ _ Hid) as [[key ->] | [-> | [-> | ->]]];
      cbn [is_RequestException]; now rewrite after_calls_silent.
Qed.

(** X1. When the lookup call fails (no connection, a 4xx or 5xx status,
    or a body that is not JSON), fetch_wikipedia_data returns [None]
    after that single request, with one error record logged; the content
    request is not made. *)
Theorem fetch_lookup_failure_gives_none (net : string -> http_result)
    (topic0 : string) (w : world) :
  net (page_id_url topic0) = TransportFailure \/
  (exists code decoded,
     net (page_id_url topic0) = HttpResponse code decoded /\
     400 <= code < 600) \/
  (exists code, net (page_id_url topic0) = HttpResponse code None) ->
  fetch_wikipedia_data net topic0 w
  = (Ok JNull,
     {| table := table w;
        requests := requests w ++ [page_id_url topic0];
        error_log := error_log w ++ [LogFetchError] |}).
Proof.
  intros H. rewrite fetch_wikipedia_data_run.
  assert (Hu : usable (net (page_id_url topic0)) = None).
  { destruct H as [-> | [(code & decoded & -> & Hc) | (code & ->)]];
      try reflexivity.
    unfold usable. destruct decoded; [|reflexivity].
    replace ((400 <=? code) && (code <? 600)) with true; [reflexivity|].
    symmetry. apply andb_true_iff. split; [apply Z.leb_le | apply Z.ltb_lt]; lia. }
  now rewrite Hu.
Qed.

Lemma fetch_lookup_failure_gives_none_witness :
  (net_content_down (page_id_url "Dog") = TransportFailure \/
   (exists code decoded,
      net_content_down (page_id_url "Dog") = HttpResponse code decoded /\
      400 <= code < 600) \/
   (exists code, net_content_down (page_id_url "Dog") = HttpResponse code None))
  /\
  fetch_wikipedia_data net_content_down "Dog" one_row_world
  = (Ok JNull,
     {| table := table one_row_world;
        requests := requests one_row_world ++ [page_id_url "Dog"];
        error_log := error_log one_row_world ++ [LogFetchError] |}).
Proof.
  assert (H : net_content_down (page_id_url "Dog") = TransportFailure \/
              (exists code decoded,
                 net_content_down (page_id_url "Dog")
                 = HttpResponse code decoded /\ 400 <= code < 600) \/
              (exists code,
                 net_content_down (page_id_url "Dog") = HttpResponse code None)).
  { right. left. exists 503, None. split; [reflexivity | lia]. }
  split; [exact H|].
  exact (fetch_lookup_failure_gives_none net_content_down "Dog"
           one_row_world H).
Defined.

(** X2. When the lookup call is answered with usable JSON from which a
    page id can be read, and the content call fails, fetch_wikipedia_data
    returns [None] after the two requests, with one error record logged. *)
Theorem fetch_content_failure_gives_none (net : string -> http_result)
    (topic0 page_id : string) (lookup : json) (w : world) :
  usable (net (page_id_url topic0)) = Some lookup ->
  lookup_page_id lookup = Ok page_id ->
  usable (net (full_content_url page_id)) = None ->
  fetch_wikipedia_data net topic0 w
  = (Ok JNull,
     {| table := table w;
        requests := requests w ++ [page_id_url topic0;
                                   full_content_url page_id];
        error_log := error_log w ++ [LogFetchError] |}).
Proof.
  intros H1 Hid H2. rewrite fetch_wikipedia_data_run.
  now rewrite H1, Hid, H2.
Qed.

Lemma fetch_content_failure_gives_none_witness :
  let lookup :=
    JObj [("batchcomplete", JStr "");
          ("query",
           JObj [("pages",
                  JObj [("6678", JObj [("pageid", JInt 6678); ("ns", JInt 0);
                                       ("title", JStr "Cat")])])])] in
  usable (net_content_down (page_id_url "Cat")) = Some lookup /\
  lookup_page_id lookup = Ok "6678" /\
  usable (net_content_down (full_content_url "6678")) = None /\
  fetch_wikipedia_data net_content_down "Cat" empty_world
  = (Ok JNull,
     {| table := table empty_world;
        requests := requests empty_world ++ [page_id_url "Cat";
                                             full_content_url "6678"];
        error_log := error_log empty_world ++ [LogFetchError] |}).
Proof.
  intros lookup.
  do 3 (split; [reflexivity|]).
  exact (fetch_content_failure_gives_none net_content_down "Cat" "6678"
           lookup empty_world eq_refl eq_refl eq_refl).
Defined.

(** X3. When both calls are answered with usable JSON, the content
    request is the one for the first key of the lookup answer's pages,
    and fetch_wikipedia_data returns the content answer as it is, logging
    nothing. *)
Theorem fetch_returns_content_answer (net : string -> http_result)
    (topic0 page_id : string) (lookup content : json) (w : world) :
  usable (net (page_id_url topic0)) = Some lookup ->
  lookup_page_id lookup = Ok page_id ->
  usable (net (full_content_url page_id)) = Some content ->
  fetch_wikipedia_data net topic0 w
  = (Ok content,
     {| table := table w;
        requests := requests w ++ [page_id_url topic0;
                                   full_content_url page_id];
        error_log := error_log w |}).
Proof.
  intros H1 Hid H2. rewrite fetch_wikipedia_data_run.
  rewrite H1, Hid, H2. unfold after_calls. now rewrite app_nil_r.
Qed.

Lemma fetch_returns_content_answer_witness :
  let page := JObj [("pageid", JInt 6678); ("ns", JInt 0);
                    ("title", JStr "Cat")] in
  let lookup := JObj [("batchcomplete", JStr "");
                      ("query", JObj [("pages", JObj [("6678", page)])])] in
  let content :=
    JObj [("batchcomplete", JStr "");
          ("query",
           JObj [("pages",
                  JObj [("6678",
                         JObj [("pageid", JInt 6678); ("ns", JInt 0);
                               ("title", JStr "Cat");
                               ("extract",
                                JStr "the cat sat on the mat the cat ran")])])])] in
  usable (net_cat (page_id_url "Cat")) = Some lookup /\
  lookup_page_id lookup = Ok "6678" /\
  usable (net_cat (full_content_url "6678")) = Some content /\
  fetch_wikipedia_data net_cat "Cat" empty_world
  = (Ok content,
     {| table := table empty_world;
        requests := requests empty_world ++ [page_id_url "Cat";
                                             full_content_url "6678"];
        error_log := error_log empty_world |}).
Proof.
  intros page lookup content.
  do 3 (split; [reflexivity|]).
  exact (fetch_returns_content_answer net_cat "Cat" "6678" lookup content
           empty_world eq_refl eq_refl eq_refl).
Defined.

(** X4. When the lookup answer is usable JSON from which no page id can
    be read (no 'query', no 'pages', pages that is not an object, or no
    page in it), the [KeyError], [TypeError], [AttributeError] or
    [IndexError] of line 40 is not caught by the [except] clause: it
    leaves fetch_wikipedia_data, after one request and with nothing
    logged. *)
Theorem fetch_malformed_lookup_raises (net : string -> http_result)
    (topic0 : string) (lookup : json) (e : exn) (w : world) :
  usable (net (page_id_url topic0)) = Some lookup ->
  lookup_page_id lookup = Raise e ->
  fetch_wikipedia_data net topic0 w
  = (Raise e,
     {| table := table w;
        requests := requests w ++ [page_id_url topic0];
        error_log := error_log w |})
  /\ ((exists key, e = KeyError key) \/ e = TypeError \/
      e = AttributeError \/ e = IndexError).
Proof.
  intros H1 Hid. split; [|now apply (lookup_page_id_exn lookup)].
  rewrite fetch_wikipedia_data_run, H1, Hid.
  unfold after_calls. now rewrite app_nil_r.
Qed.

Lemma fetch_malformed_lookup_raises_witness :
  let lookup := JObj [("batchcomplete", JStr "");
                      ("query", JObj [("pages", JObj [])])] in
  usable (net_no_pages (page_id_url "Nothing")) = Some lookup /\
  lookup_page_id lookup = Raise IndexError /\
  fetch_wikipedia_data net_no_pages "Nothing" empty_world
  = (Raise IndexError,
     {| table := table empty_world;
        requests := requests empty_world ++ [page_id_url "Nothing"];
        error_log := error_log empty_world |})
  /\ ((exists key, IndexError = KeyError key) \/ IndexError = TypeError \/
      IndexError = AttributeError \/ IndexError = IndexError).
Proof.
  intros lookup.
  do 2 (split; [reflexivity|]).
  exact (fetch_malformed_lookup_raises net_no_pages "Nothing" lookup
           IndexError empty_world eq_refl eq_refl).
Defined.

(** What a fetch does to the world, whatever the upstream answers. *)
Lemma fetch_wikipedia_data_effects (net : string -> http_result)
    (topic0 : string) (w : world) :
  exists urls logged,
    snd (fetch_wikipedia_data net topic0 w) = after_calls urls logged w /\
    (urls = [page_id_url topic0] \/
     exists page_id, urls = [page_id_url topic0; full_content_url page_id]) /\
    (logged = [] \/
     (logged = [LogFetchError] /\
      fst (fetch_wikipedia_data net topic0 w) = Ok JNull)) /\
    (forall e, fst (fetch_wikipedia_data net topic0 w) = Raise e ->
       logged = [] /\
       ((exists key, e = KeyError key) \/ e = TypeError \/
        e = AttributeError \/ e = IndexError)).
Proof.
  rewrite fetch_wikipedia_data_run.
  destruct (usable (net (page_id_url topic0))) as [lookup|].
  - destruct (lookup_page_id lookup) as [page_id|e] eqn:Hid.
    + destruct (usable (net (full_content_url page_id))) as [content|];
        eexists _, _; simpl; (split; [reflexivity|]);
        (split; [right; now exists page_id|]); split; eauto;
        intros e; discriminate.
    + eexists _, _; simpl; split; [reflexivity|].
      split; [now left|]. split; [now left|].
      intros e' H. injection H as <-. split; [reflexivity|].
      now apply (lookup_page_id_exn lookup).
  - eexists _, _; simpl; split; [reflexivity|].
    split; [now left|]. split; [right; now split|]. intros e; discriminate.
Qed.

(** X5. Whatever the upstream answers, fetch_wikipedia_data makes one or
    two requests, the first for the topic's lookup URL and the second, if
    any, a content URL; it logs at most one record, and only when it
    returns [None]; and it never lets a [RequestException] or a
    [ValueError] out: an exception that leaves it is a [KeyError],
    [TypeError], [AttributeError] or [IndexError], and is not logged. *)
Theorem fetch_requests_and_log (net : string -> http_result)
    (topic0 : string) (w : world) :
  let out := fetch_wikipedia_data net topic0 w in
  exists urls logged,
    table (snd out) = table w /\
    requests (snd out) = (requests w ++ urls)%list /\
    error_log (snd out) = (error_log w ++ logged)%list /\
    (urls = [page_id_url topic0] \/
     exists page_id, urls = [page_id_url topic0; full_content_url page_id]) /\
    (logged = [] \/ (logged = [LogFetchError] /\ fst out = Ok JNull)) /\
    (forall e, fst out = Raise e ->
       logged = [] /\
       ((exists key, e = KeyError key) \/ e = TypeError \/
        e = AttributeError \/ e = IndexError)).
Proof.
  intros out.
  destruct (fetch_wikipedia_data_effects net topic0 w)
    as (urls & logged & Hw & Hurls & Hlog & Hexn).
  exists urls, logged. subst out. rewrite Hw. simpl.
  do 3 (split; [reflexivity|]). split; [exact Hurls|].
  split; [exact Hlog | exact Hexn].
Qed.

(** ** word_frequency: the error paths *)

(** Passes the validation of lines 82-96 in the goal. *)
Ltac enter_valid Hv :=
  let Ht := fresh "Ht" in let Hte := fresh "Hte" in
  let ns := fresh "ns" in let Hn := fresh "Hn" in
  let Hne := fresh "Hne" in let Hi := fresh "Hi" in
  let Hpos := fresh "Hpos" in let Hle := fresh "Hle" in
  destruct Hv as (Ht & Hte & ns & Hn & Hne & Hi & Hpos);
  unfold word_frequency; rewrite Ht, Hn, Hte, Hne;
  run; rewrite Hi;
  match goal with
  | |- context [?k <=? 0] =>
      destruct (k <=? 0) eqn:Hle; [apply Z.leb_le in Hle; lia|]
  end;
  cbn [orb].

(** X6. For a request with valid parameters, a failure of the lookup
    call, or of the content call after a lookup that gave a page id, is
    answered 404 'Invalid topic. Wikipedia article not found.'; one
    error record is logged and the table is unchanged. *)
Theorem upstream_failure_404 (net : string -> http_result)
    (soup_get_text : json -> result string)
    (args : list (string * string)) (w : world) (topic0 : string) (n : Z) :
  valid_request args topic0 n ->
  usable (net (page_id_url topic0)) = None \/
  (exists lookup page_id,
     usable (net (page_id_url topic0)) = Some lookup /\
     lookup_page_id lookup = Ok page_id /\
     usable (net (full_content_url page_id)) = None) ->
  exists urls,
    (urls = [page_id_url topic0] \/
     exists page_id, urls = [page_id_url topic0; full_content_url page_id]) /\
    word_frequency net soup_get_text args w
    = (Ok {| status := 404;
             body := JObj [("error",
                            JStr "Invalid topic. Wikipedia article not found.")] |},
       {| table := table w;
          requests := requests w ++ urls;
          error_log := error_log w ++ [LogFetchError] |}).
Proof.
  intros Hv Hfail.
  assert (Hf : exists urls,
             (urls = [page_id_url topic0] \/
              exists page_id,
                urls = [page_id_url topic0; full_content_url page_id]) /\
             fetch_wikipedia_data net topic0 w
             = (Ok JNull, after_calls urls [LogFetchError] w)).
  { rewrite fetch_wikipedia_data_run.
    destruct Hfail as [H1 | (lookup & page_id & H1 & Hid & H2)].
    - rewrite H1. eexists. split; [now left | reflexivity].
    - rewrite H1, Hid, H2. eexists.
      split; [right; now exists page_id | reflexivity]. }
  destruct Hf as (urls & Hurls & Hf). exists urls. split; [exact Hurls|].
  enter_valid Hv. now rewrite Hf.
Qed.

Lemma upstream_failure_404_witness :
  let args := [("topic", "Cat"); ("n", "3")] in
  valid_request args "Cat" 3 /\
  (usable (net_content_down (page_id_url "Cat")) = None \/
   (exists lookup page_id,
      usable (net_content_down (page_id_url "Cat")) = Some lookup /\
      lookup_page_id lookup = Ok page_id /\
      usable (net_content_down (full_content_url page_id)) = None)) /\
  exists urls,
    (urls = [page_id_url "Cat"] \/
     exists page_id, urls = [page_id_url "Cat"; full_content_url page_id]) /\
    word_frequency net_content_down markup_free_get_text args one_row_world
    = (Ok {| status := 404;
             body := JObj [("error",
                            JStr "Invalid topic. Wikipedia article not found.")] |},
       {| table := table one_row_world;
          requests := requests one_row_world ++ urls;
          error_log := error_log one_row_world ++ [LogFetchError] |}).
Proof.
  intros args.
  assert (Hv : valid_request args "Cat" 3).
  { split; [reflexivity|]. split; [reflexivity|].
    exists "3". repeat split; reflexivity. }
  assert (Hfail :
    usable (net_content_down (page_id_url "Cat")) = None \/
    (exists lookup page_id,
       usable (net_content_down (page_id_url "Cat")) = Some lookup /\
       lookup_page_id lookup = Ok page_id /\
       usable (net_content_down (full_content_url page_id)) = None)).
  { right. eexists _, "6678". repeat split; reflexivity. }
  split; [exact Hv|]. split; [exact Hfail|].
  exact (upstream_failure_404 net_content_down markup_free_get_text args
           one_row_world "Cat" 3 Hv Hfail).
Defined.

(** X7. For a request with valid parameters whose fetched data has
    'query' and 'pages', a first page without a 'title' is answered 500
    'Failed to retrieve article details from Wikipedia.'; the handler
    logs nothing and the table is unchanged. *)
Theorem missing_title_500 (net : string -> http_result)
    (soup_get_text : json -> result string)
    (args : list (string * string)) (w w1 : world)
    (topic0 : string) (n : Z) (data page : json) :
  valid_request args topic0 n ->
  fetch_wikipedia_data net topic0 w = (Ok data, w1) ->
  article_not_found data = Ok false ->
  first_page data = Ok page ->
  Py.contains "title" page = Ok false ->
  word_frequency net soup_get_text args w
  = (Ok {| status := 500;
           body := JObj [("error",
                          JStr "Failed to retrieve article details from Wikipedia.")] |},
     w1)
  /\ table w1 = table w.
Proof.
  intros Hv Hf Hnf Hp Htitle. split.
  - enter_valid Hv. rewrite Hf, Hnf.
    destruct (first_page_id _ _ Hp) as [page_id Hid].
    rewrite Hid, !(first_page_steps data page_id Hid).
    unfold rbind. now rewrite Hp, Htitle.
  - pose proof (keeps_table_fetch_wikipedia_data net topic0 w) as Htab.
    now rewrite Hf in Htab.
Qed.

Lemma missing_title_500_witness :
  let args := [("topic", "Zzyzx123"); ("n", "5")] in
  let page := JObj [("pageid", JInt (-1)); ("missing", JStr "")] in
  let data := JObj [("batchcomplete", JStr "");
                    ("query", JObj [("pages", JObj [("-1", page)])])] in
  let w1 := {| table := [];
               requests := [page_id_url "Zzyzx123"; full_content_url "-1"];
               error_log := [] |} in
  valid_request args "Zzyzx123" 5 /\
  fetch_wikipedia_data net_missing "Zzyzx123" empty_world = (Ok data, w1) /\
  article_not_found data = Ok false /\
  first_page data = Ok page /\
  Py.contains "title" page = Ok false /\
  word_frequency net_missing markup_free_get_text args empty_world
  = (Ok {| status := 500;
           body := JObj [("error",
                          JStr "Failed to retrieve article details from Wikipedia.")] |},
     w1)
  /\ table w1 = table empty_world.
Proof.
  intros args page data w1.
  assert (Hv : valid_request args "Zzyzx123" 5).
  { split; [reflexivity|]. split; [reflexivity|].
    exists "5". repeat split; reflexivity. }
  split; [exact Hv|]. do 4 (split; [reflexivity|]).
  exact (missing_title_500 net_missing markup_free_get_text args
           empty_world w1 "Zzyzx123" 5 data page
           Hv eq_refl eq_refl eq_refl eq_refl).
Defined.

(** X8. For a request with valid parameters whose first page has a title
    and an extract, an empty cleaned text is answered 500 'Failed to
    retrieve clean article text from Wikipedia.'; the fetched data is
    logged in one error record and the table is unchanged. *)
Theorem empty_clean_text_500 (net : string -> http_result)
    (soup_get_text : json -> result string)
    (args : list (string * string)) (w w1 : world)
    (topic0 : string) (n : Z) (data page article : json) :
  valid_request args topic0 n ->
  fetch_wikipedia_data net topic0 w = (Ok data, w1) ->
  article_not_found data = Ok false ->
  first_page data = Ok page ->
  Py.contains "title" page = Ok true ->
  Py.getitem page "extract" = Ok article ->
  soup_get_text article = Ok "" ->
  word_frequency net soup_get_text args w
  = (Ok {| status := 500;
           body := JObj [("error",
                          JStr "Failed to retrieve clean article text from Wikipedia.")] |},
     {| table := table w;
        requests := requests w1;
        error_log := error_log w1 ++ [LogNoCleanText data] |}).
Proof.
  intros Hv Hf Hnf Hp Htitle Hex Hgt.
  pose proof (keeps_table_fetch_wikipedia_data net topic0 w) as Htab.
  rewrite Hf in Htab. simpl in Htab. rewrite <- Htab.
  enter_valid Hv. rewrite Hf, Hnf.
  destruct (first_page_id _ _ Hp) as [page_id Hid].
  rewrite Hid, !(first_page_steps data page_id Hid).
  unfold rbind. rewrite Hp, Htitle. cbn [negb]. now rewrite Hex, Hgt.
Qed.

Lemma empty_clean_text_500_witness :
  let args := [("topic", "Empty"); ("n", "1")] in
  let page := JObj [("pageid", JInt 9); ("ns", JInt 0);
                    ("title", JStr "Empty"); ("extract", JStr "")] in
  let data := JObj [("batchcomplete", JStr "");
                    ("query", JObj [("pages", JObj [("9", page)])])] in
  let w1 := {| table := table one_row_world;
               requests := [page_id_url "Empty"; full_content_url "9"];
               error_log := [] |} in
  valid_request args "Empty" 1 /\
  fetch_wikipedia_data net_empty_extract "Empty" one_row_world
  = (Ok data, w1) /\
  article_not_found data = Ok false /\
  first_page data = Ok page /\
  Py.contains "title" page = Ok true /\
  Py.getitem page "extract" = Ok (JStr "") /\
  markup_free_get_text (JStr "") = Ok "" /\
  word_frequency net_empty_extract markup_free_get_text args one_row_world
  = (Ok {| status := 500;
           body := JObj [("error",
                          JStr "Failed to retrieve clean article text from Wikipedia.")] |},
     {| table := table one_row_world;
        requests := requests w1;
        error_log := error_log w1 ++ [LogNoCleanText data] |}).
Proof.
  intros args page data w1.
  assert (Hv : valid_request args "Empty" 1).
  { split; [reflexivity|]. split; [reflexivity|].
    exists "1". repeat split; reflexivity. }
  split; [exact Hv|]. do 6 (split; [reflexivity|]).
  exact (empty_clean_text_500 net_empty_extract markup_free_get_text args
           one_row_world w1 "Empty" 1 data page (JStr "")
           Hv eq_refl eq_refl eq_refl eq_refl eq_refl eq_refl).
Defined.

(** X9. For a request with valid parameters, a lookup answer that is
    usable JSON but gives no page id makes the exception of line 40 leave
    the handler itself: the outcome is that exception, not a 404 or any
    other response; one request was made, nothing is logged or stored. *)
Theorem malformed_lookup_escapes_handler (net : string -> http_result)
    (soup_get_text : json -> result string)
    (args : list (string * string)) (w : world)
    (topic0 : string) (n : Z) (lookup : json) (e : exn) :
  valid_request args topic0 n ->
  usable (net (page_id_url topic0)) = Some lookup ->
  lookup_page_id lookup = Raise e ->
  word_frequency net soup_get_text args w
  = (Raise e,
     {| table := table w;
        requests := requests w ++ [page_id_url topic0];
        error_log := error_log w |}).
Proof.
  intros Hv H1 Hid.
  assert (Hf : fetch_wikipedia_data net topic0 w
               = (Raise e, after_calls [page_id_url topic0] [] w))
    by (now rewrite fetch_wikipedia_data_run, H1, Hid).
  enter_valid Hv. rewrite Hf. unfold after_calls. now rewrite app_nil_r.
Qed.

Lemma malformed_lookup_escapes_handler_witness :
  let args := [("topic", "Nothing"); ("n", "4")] in
  let lookup := JObj [("batchcomplete", JStr "");
                      ("query", JObj [("pages", JObj [])])] in
  valid_request args "Nothing" 4 /\
  usable (net_no_pages (page_id_url "Nothing")) = Some lookup /\
  lookup_page_id lookup = Raise IndexError /\
  word_frequency net_no_pages markup_free_get_text args one_row_world
  = (Raise IndexError,
     {| table := table one_row_world;
        requests := requests one_row_world ++ [page_id_url "Nothing"];
        error_log := error_log one_row_world |}).
Proof.
  intros args lookup.
  assert (Hv : valid_request args "Nothing" 4).
  { split; [reflexivity|]. split; [reflexivity|].
    exists "4". repeat split; reflexivity. }
  split; [exact Hv|]. do 2 (split; [reflexivity|]).
  exact (malformed_lookup_escapes_handler net_no_pages markup_free_get_text
           args one_row_world "Nothing" 4 lookup IndexError
           Hv eq_refl eq_refl).
Defined.



(** ** word_frequency: what a request does to the world *)

Ltac not_valid :=
  let t := fresh in let k := fresh in
  let Ht := fresh in let Hte := fresh in let ns := fresh in
  let Hn := fresh in let Hne := fresh in let Hi := fresh in
  let Hpos := fresh in
  intros (t & k & Ht & Hte & ns & Hn & Hne & Hi & Hpos);
  repeat match goal with
         | H : ?x = _, H' : ?x = _ |- _ => rewrite H in H'
         | H : Some _ = Some _ |- _ => injection H as ->
         | H : Ok _ = Ok _ |- _ => injection H as ->
         end;
  try discriminate; try congruence; try lia.

(** The world a request leaves: the one it found when the parameters are
    rejected; otherwise the one the fetch left, possibly with one record
    added to the log or one row added to the table. *)
Lemma word_frequency_world (net : string -> http_result)
    (soup_get_text : json -> result string)
    (args : list (string * string)) (w : world) :
  (snd (word_frequency net soup_get_text args w) = w /\
   ~ exists topic0 n, valid_request args topic0 n) \/
  (exists topic0 n,
     valid_request args topic0 n /\
     (snd (word_frequency net soup_get_text args w)
      = snd (fetch_wikipedia_data net topic0 w) \/
      exists data,
        fst (fetch_wikipedia_data net topic0 w) = Ok data /\
        article_not_found data = Ok false /\
        (snd (word_frequency net soup_get_text args w)
         = {| table := table (snd (fetch_wikipedia_data net topic0 w));
              requests := requests (snd (fetch_wikipedia_data net topic0 w));
              error_log := error_log (snd (fetch_wikipedia_data net topic0 w))
                           ++ [LogNoCleanText data] |} \/
         exists r,
           snd (word_frequency net soup_get_text args w)
           = saved topic0 r (snd (fetch_wikipedia_data net topic0 w))))).
Proof.
  unfold word_frequency.
  destruct (args_get "topic" args) as [topic0|] eqn:Et;
    [|left; split; [reflexivity | not_valid]].
  destruct (args_get "n" args) as [ns|] eqn:En;
    [|left; split; [reflexivity | not_valid]].
  destruct (PyStr.is_empty topic0) eqn:Hte;
    [left; split; [reflexivity | not_valid]|].
  destruct (PyStr.is_empty ns) eqn:Hne;
    [left; split; [reflexivity | not_valid]|].
  cbn [orb]. run.
  destruct (Py.int ns) as [n|e] eqn:Hi;
    [|destruct (is_ValueError e); left; (split; [reflexivity | not_valid])].
  destruct (n <=? 0) eqn:Hle;
    [apply Z.leb_le in Hle; left; split; [reflexivity | not_valid]|].
  apply Z.leb_gt in Hle.
  right. exists topic0, n. split.
  { split; [assumption|]. split; [assumption|].
    exists ns. repeat split; assumption. }
  destruct (fetch_wikipedia_data net topic0 w) as [[data|e] w1];
    [|now left].
  cbn [fst snd].
  destruct (article_not_found data) as [[|]|e] eqn:Hnf;
    [now left| |now left].
  destruct (let* pages := pages_of data in
            let* ks := Py.keys pages in Py.first ks)
    as [page_id|e] eqn:Hid; [|now left].
  rewrite !(first_page_steps data page_id Hid). unfold rbind.
  destruct (first_page data) as [page|e]; [|now left].
  destruct (Py.contains "title" page) as [[|]|e]; [|now left|now left].
  cbn [negb].
  destruct (Py.getitem page "extract") as [article|e]; [|now left].
  destruct (soup_get_text article) as [text|e]; [|now left].
  right. exists data. split; [reflexivity|]. split; [assumption|].
  destruct (PyStr.is_empty text); [now left|].
  right. now exists (analyze_word_frequency text n).
Qed.

(** X11. A /word_frequency request makes an upstream request exactly
    when its parameters are valid; it then makes one or two (the lookup
    for its topic, then possibly one content request), and in every case
    it adds at most one record to the error log and never removes
    requests or log records. *)
Theorem word_frequency_requests_and_log (net : string -> http_result)
    (soup_get_text : json -> result string)
    (args : list (string * string)) (w : world) :
  let w' := snd (word_frequency net soup_get_text args w) in
  exists urls logged,
    requests w' = (requests w ++ urls)%list /\
    error_log w' = (error_log w ++ logged)%list /\
    (length urls <= 2)%nat /\
    (length logged <= 1)%nat /\
    (urls <> [] <-> exists topic0 n, valid_request args topic0 n) /\
    (forall topic0 n, valid_request args topic0 n ->
       urls = [page_id_url topic0] \/
       exists page_id, urls = [page_id_url topic0; full_content_url page_id]).
Proof.
  intros w'. subst w'.
  destruct (word_frequency_world net soup_get_text args w)
    as [[Hw Hinv] | (topic0 & n & Hv & Hw)].
  - exists [], []. rewrite Hw, !app_nil_r. simpl.
    repeat split; try lia; try tauto.
    intros topic0 n Hv. exfalso. apply Hinv. now exists topic0, n.
  - destruct (fetch_wikipedia_data_effects net topic0 w)
      as (urls & logged & Hf & Hurls & Hlog & _).
    assert (Hlen : (length urls <= 2)%nat /\ urls <> [])
      by (destruct Hurls as [->|[pid ->]]; simpl; split; (lia || discriminate)).
    assert (Hsame : forall t k, valid_request args t k ->
              urls = [page_id_url t] \/
              exists page_id, urls = [page_id_url t; full_content_url page_id]).
    { intros t k (Ht & _). destruct Hv as (Ht0 & _).
      rewrite Ht in Ht0. now injection Ht0 as ->. }
    destruct Hw as [Hw | (data & Hdata & Hnf & [Hw | [r Hw]])];
      rewrite Hw, Hf.
    + exists urls, logged. simpl.
      repeat split; try tauto; try (now exists topic0, n).
      destruct Hlog as [->|[-> _]]; simpl; lia.
    + assert (Hsilent : logged = []).
      { destruct Hlog as [->|[_ Hnull]]; [reflexivity|].
        rewrite Hdata in Hnull. injection Hnull as ->. discriminate Hnf. }
      subst logged. exists urls, [LogNoCleanText data]. simpl.
      rewrite app_nil_r.
      repeat split; try tauto; try lia; try (now exists topic0, n).
    + assert (Hsilent : logged = []).
      { destruct Hlog as [->|[_ Hnull]]; [reflexivity|].
        rewrite Hdata in Hnull. injection Hnull as ->. discriminate Hnf. }
      subst logged. exists urls, []. simpl.
      repeat split; try tauto; try lia; try (now exists topic0, n).
Qed.

(** ** analyze_word_frequency: further properties *)

Lemma no_whitespace_snoc (tok : string) (c : ascii) :
  no_whitespace (tok ++ String c "")
  = no_whitespace tok && negb (PyStr.is_space c).
Proof.
  unfold no_whitespace. induction tok as [|a tok IH]; simpl.
  - now rewrite andb_true_r.
  - now rewrite IH, andb_assoc.
Qed.

Lemma split_from_tokens (s tok : string) :
  no_whitespace tok = true ->
  Forall (fun t => t <> "" /\ no_whitespace t = true) (PyStr.split_from tok s).
Proof.
  revert tok. induction s as [|c s IH]; intros tok Htok; simpl.
  - destruct tok; simpl; [constructor|].
    repeat constructor; [discriminate | assumption].
  - destruct (PyStr.is_space c) eqn:Hc.
    + destruct tok; simpl; [now apply IH|].
      constructor; [split; [discriminate | assumption] | now apply IH].
    + apply IH. now rewrite no_whitespace_snoc, Htok, Hc.
Qed.

Lemma split_from_nil (s tok : string) :
  PyStr.split_from tok s = [] ->
  tok = "" /\ forallb PyStr.is_space (list_ascii_of_string s) = true.
Proof.
  revert tok. induction s as [|c s IH]; intros tok; simpl.
  - destruct tok; simpl; [tauto | discriminate].
  - destruct (PyStr.is_space c) eqn:Hc; simpl.
    + destruct tok; simpl; [|discriminate].
      intros H. apply IH in H. tauto.
    + intros H. apply IH in H. destruct H as [H _].
      destruct tok; discriminate H.
Qed.

Lemma total_count_perm (l l' : list (string * Z)) :
  Permutation l l' -> total_count l = total_count l'.
Proof.
  induction 1; simpl; lia.
Qed.

Lemma total_count_add (w : string) (c : Counter.t) :
  total_count (Counter.add w c) = total_count c + 1.
Proof.
  induction c as [|[k v] c IH]; simpl; [reflexivity|].
  destruct (string_dec k w); simpl; lia.
Qed.

Lemma total_count_of_list (tokens : list string) :
  total_count (Counter.of_list tokens) = Z.of_nat (length tokens).
Proof.
  induction tokens as [|w tokens IH] using rev_ind; [reflexivity|].
  rewrite of_list_snoc, total_count_add, IH, length_app. simpl. lia.
Qed.

Lemma total_count_firstn (k : nat) (l : list (string * Z)) :
  Forall (fun p => 0 <= snd p) l ->
  total_count (firstn k l) <= total_count l.
Proof.
  revert k. induction l as [|p l IH]; intros k Hall.
  - rewrite firstn_nil. simpl. lia.
  - inversion Hall as [|? ? Hp Hl]; subst.
    destruct k as [|k]; simpl.
    + assert (H0 := IH 0%nat Hl). simpl in H0. lia.
    + specialize (IH k Hl). lia.
Qed.

Lemma in_firstn_full {A} (k : nat) (l : list A) (x : A) :
  In x (firstn k l) -> In x l.
Proof.
  intros H. rewrite <- (firstn_skipn k l). apply in_or_app. now left.
Qed.

(** X12. The answer for a smaller [n] is the beginning of the answer for
    a larger one: asking for more words never changes or reorders the
    words already returned. *)
Theorem analyze_word_frequency_prefix (text : string) (n m : Z) :
  n <= m ->
  analyze_word_frequency text n
  = firstn (Z.to_nat n) (analyze_word_frequency text m).
Proof.
  intros Hnm. unfold analyze_word_frequency, Counter.most_common.
  rewrite firstn_firstn. f_equal. lia.
Qed.

Lemma analyze_word_frequency_prefix_witness :
  2 <= 5 /\
  analyze_word_frequency "the cat sat on the mat the cat ran" 2
  = firstn (Z.to_nat 2)
      (analyze_word_frequency "the cat sat on the mat the cat ran" 5).
Proof.
  assert (H : 2 <= 5) by (intros H; discriminate H).
  split; [exact H|].
  exact (analyze_word_frequency_prefix
           "the cat sat on the mat the cat ran" 2 5 H).
Defined.

(** X13. The counts returned never add up to more than the number of
    tokens of the text, and they add up to exactly that number when [n]
    is at least the number of distinct tokens. *)
Theorem analyze_word_frequency_total (text : string) (n : Z) :
  total_count (analyze_word_frequency text n)
  <= Z.of_nat (length (PyStr.split text)) /\
  ((distinct_count (PyStr.split text) <= Z.to_nat n)%nat ->
   total_count (analyze_word_frequency text n)
   = Z.of_nat (length (PyStr.split text))).
Proof.
  unfold analyze_word_frequency, Counter.most_common.
  set (tokens := PyStr.split text).
  set (full := Counter.sorted_desc (Counter.of_list tokens)).
  assert (Hfull : total_count full = Z.of_nat (length tokens)).
  { unfold full. rewrite (total_count_perm _ _ (sorted_desc_perm _)).
    apply total_count_of_list. }
  split.
  - rewrite <- Hfull. apply total_count_firstn.
    rewrite Forall_forall. intros [w c] Hin.
    apply ranking_In in Hin. destruct Hin as [Hw ->].
    apply occurrences_pos in Hw. simpl. lia.
  - intros Hn. rewrite firstn_all2; [exact Hfull|].
    unfold full. now rewrite ranking_length.
Qed.

(** X14. Every word returned is a non-empty string without any
    whitespace character, and its count is at least 1. *)
Theorem analyze_word_frequency_words (text : string) (n : Z) :
  Forall (fun p => fst p <> "" /\ no_whitespace (fst p) = true /\ 1 <= snd p)
         (analyze_word_frequency text n).
Proof.
  rewrite Forall_forall. intros [w c] Hin.
  unfold analyze_word_frequency, Counter.most_common in Hin.
  apply in_firstn_full, ranking_In in Hin. destruct Hin as [Hw ->].
  pose proof (split_from_tokens text "" eq_refl) as Htok.
  rewrite Forall_forall in Htok. destruct (Htok w Hw) as [Hne Hws].
  apply occurrences_pos in Hw. simpl. repeat split; try assumption. lia.
Qed.

(** X15. For a positive [n], the result is empty exactly when the text
    holds no token, that is when every character of the text (if any) is
    a whitespace character. *)
Theorem analyze_word_frequency_empty_iff (text : string) (n : Z) :
  0 < n ->
  (analyze_word_frequency text n = [] <->
   forallb PyStr.is_space (list_ascii_of_string text) = true).
Proof.
  intros Hn. split.
  - intros Hnil.
    pose proof (analyze_word_frequency_length text n) as Hlen.
    rewrite Hnil in Hlen. simpl in Hlen.
    assert (Hd : distinct_count (PyStr.split text) = 0%nat) by lia.
    unfold distinct_count in Hd. apply length_zero_iff_nil in Hd.
    assert (Hsplit : PyStr.split text = []).
    { destruct (PyStr.split text) as [|t ts] eqn:E; [reflexivity|].
      assert (Hin : In t (nodup string_dec (t :: ts)))
        by (apply nodup_In; now left).
      rewrite Hd in Hin. contradiction. }
    now apply split_from_nil in Hsplit.
  - intros Hws. unfold analyze_word_frequency.
    rewrite (split_whitespace text Hws).
    unfold Counter.most_common. simpl. apply firstn_nil.
Qed.

Lemma analyze_word_frequency_empty_iff_witness :
  0 < 4 /\
  (analyze_word_frequency "  " 4 = [] <->
   forallb PyStr.is_space (list_ascii_of_string "  ") = true).
Proof.
  assert (H : 0 < 4) by reflexivity.
  split; [exact H|].
  exact (analyze_word_frequency_empty_iff "  " 4 H).
Defined.

(** ** The history across requests *)

Lemma ids_ascending_new_entry (rows : list SearchHistory) (topic0 : string)
    (r : list (string * Z)) :
  ids_ascending rows ->
  ids_ascending (rows ++ [new_entry rows topic0 r]).
Proof.
  intros Hs. apply StronglySorted_snoc; [exact Hs|].
  apply next_id_fresh.
Qed.

Lemma ids_ascending_NoDup (rows : list SearchHistory) :
  ids_ascending rows -> NoDup (map id rows).
Proof.
  intros Hs. induction Hs as [|e rows Hs IH Hall]; simpl; constructor;
    [|assumption].
  intros Hin. apply in_map_iff in Hin. destruct Hin as (x & Hx & Hin).
  rewrite Forall_forall in Hall. specialize (Hall x Hin). lia.
Qed.

(** One /word_frequency request adds one row when it is answered 200 and
    none otherwise, and keeps the rowids ascending. *)
Lemma word_frequency_table_step (net : string -> http_result)
    (soup_get_text : json -> result string)
    (args : list (string * string)) (w : world) :
  exists added,
    table (snd (word_frequency net soup_get_text args w))
    = (table w ++ added)%list /\
    length added
    = match fst (word_frequency net soup_get_text args w) with
      | Ok resp => if status resp =? 200 then 1%nat else 0%nat
      | Raise _ => 0%nat
      end /\
    (ids_ascending (table w) -> ids_ascending (table w ++ added)).
Proof.
  destruct (word_frequency_cases net soup_get_text args w)
    as [(topic0 & n & text & w1 & Hs) | (res & w' & Hrun & Htab & Hst)].
  - pose proof (word_frequency_success _ _ _ _ _ _ _ _ Hs) as Hok.
    assert (Htab : table w1 = table w).
    { destruct Hs as [_ (data & _ & _ & Hf & _) _].
      pose proof (keeps_table_fetch_wikipedia_data net topic0 w) as Htab.
      now rewrite Hf in Htab. }
    rewrite Hok. simpl. rewrite Htab.
    eexists. split; [reflexivity|]. split; [reflexivity|].
    apply ids_ascending_new_entry.
  - rewrite Hrun. simpl. exists []. rewrite app_nil_r.
    split; [exact Htab|]. split; [|tauto].
    destruct res as [resp|e]; [|reflexivity].
    destruct (status resp =? 200) eqn:E; [|reflexivity].
    apply Z.eqb_eq in E. lia.
Qed.

Lemma serve_table (soup_get_text : json -> result string)
    (calls : list call) (w : world) :
  exists added,
    table (snd (serve soup_get_text calls w)) = (table w ++ added)%list /\
    length added = count_analyses calls (fst (serve soup_get_text calls w)) /\
    (ids_ascending (table w) -> ids_ascending (table w ++ added)).
Proof.
  revert w. induction calls as [|c calls IH]; intros w.
  - exists []. simpl. rewrite app_nil_r. tauto.
  - simpl.
    assert (Hstep : exists added,
              table (snd (handle soup_get_text c w))
              = (table w ++ added)%list /\
              length added
              = match c, fst (handle soup_get_text c w) with
                | GetWordFrequency _ _, Ok resp =>
                    if status resp =? 200 then 1%nat else 0%nat
                | _, _ => 0%nat
                end /\
              (ids_ascending (table w) -> ids_ascending (table w ++ added))).
    { destruct c as [net args|]; simpl.
      - apply word_frequency_table_step.
      - exists []. rewrite app_nil_r. tauto. }
    destruct Hstep as (added1 & Ht1 & Hl1 & Hi1).
    destruct (handle soup_get_text c w) as [r w1] eqn:Hh.
    simpl in Ht1, Hl1.
    destruct (IH w1) as (added2 & Ht2 & Hl2 & Hi2).
    destruct (serve soup_get_text calls w1) as [rs w2] eqn:Hs.
    simpl in *. exists (added1 ++ added2)%list.
    rewrite Ht2, Ht1, <- app_assoc. split; [reflexivity|].
    split.
    + rewrite length_app, Hl1, Hl2.
      destruct c as [net args|]; [|reflexivity].
      destruct r as [resp|e]; reflexivity.
    + intros Ha. rewrite app_assoc. rewrite Ht1 in Hi2. auto.
Qed.

(** X16. Rowids stay strictly ascending, hence unique, through any run
    of requests to the two endpoints, whatever their outcomes. *)
Theorem serve_keeps_ids_unique (soup_get_text : json -> result string)
    (calls : list call) (w : world) :
  ids_ascending (table w) ->
  ids_ascending (table (snd (serve soup_get_text calls w))) /\
  NoDup (map id (table (snd (serve soup_get_text calls w)))).
Proof.
  intros Ha.
  destruct (serve_table soup_get_text calls w) as (added & Ht & _ & Hi).
  rewrite Ht. split; [now apply Hi|].
  apply ids_ascending_NoDup. now apply Hi.
Qed.

Lemma serve_keeps_ids_unique_witness :
  let calls := [GetWordFrequency net_cat [("topic", "Cat"); ("n", "3")];
                GetSearchHistory;
                GetWordFrequency net_cat [("topic", "Cat"); ("n", "2")]] in
  ids_ascending (table one_row_world) /\
  ids_ascending
    (table (snd (serve markup_free_get_text calls one_row_world))) /\
  NoDup (map id (table (snd (serve markup_free_get_text calls
                               one_row_world)))).
Proof.
  intros calls.
  assert (Ha : ids_ascending (table one_row_world))
    by (repeat constructor).
  split; [exact Ha|].
  exact (serve_keeps_ids_unique markup_free_get_text calls one_row_world Ha).
Defined.

(** X17. The history is append-only across requests: after any run of
    requests the table is the table before the run followed by one new
    row for each /word_frequency request that was answered 200; no
    earlier row is changed, moved or removed, and no other request adds
    a row. *)
Theorem serve_appends_only (soup_get_text : json -> result string)
    (calls : list call) (w : world) :
  exists added,
    table (snd (serve soup_get_text calls w)) = (table w ++ added)%list /\
    length added = count_analyses calls (fst (serve soup_get_text calls w)).
Proof.
  destruct (serve_table soup_get_text calls w) as (added & Ht & Hl & _).
  now exists added.
Qed.

Lemma fetch_answer_independent (net : string -> http_result)
    (topic0 : string) :
  answer_independent (fetch_wikipedia_data net topic0).
Proof.
  intros w w2. rewrite !fetch_wikipedia_data_run.
  destruct (usable (net (page_id_url topic0))) as [lookup|]; [|reflexivity].
  destruct (lookup_page_id lookup) as [page_id|e]; [|reflexivity].
  destruct (usable (net (full_content_url page_id))); reflexivity.
Qed.

Lemma request_succeeds_anywhere (net : string -> http_result)
    (soup_get_text : json -> result string)
    (args : list (string * string)) (w w1 w2 : world)
    (topic0 : string) (n : Z) (text : string) :
  request_succeeds net soup_get_text args w topic0 n text w1 ->
  request_succeeds net soup_get_text args w2 topic0 n text
                   (snd (fetch_wikipedia_data net topic0 w2)).
Proof.
  intros [Hv (data & page & article & Hf & Hrest) Htx].
  split; [exact Hv| |exact Htx].
  exists data, page, article. split; [|exact Hrest].
  pose proof (fetch_answer_independent net topic0 w2 w) as Hind.
  rewrite Hf in Hind. simpl in Hind.
  destruct (fetch_wikipedia_data net topic0 w2) as [r w3].
  simpl in *. now subst r.
Qed.

(** X18. The answer to a /word_frequency request does not depend on the
    world it is served in: the stored history, the earlier requests and
    the log have no influence on the status or the body (or on the
    exception). *)
Theorem word_frequency_answer_stateless (net : string -> http_result)
    (soup_get_text : json -> result string)
    (args : list (string * string)) (w w2 : world) :
  fst (word_frequency net soup_get_text args w)
  = fst (word_frequency net soup_get_text args w2).
Proof.
  destruct (word_frequency_cases net soup_get_text args w)
    as [(topic0 & n & text & w1 & Hs) | (res & w' & Hrun & _ & Hst)].
  - rewrite (word_frequency_success _ _ _ _ _ _ _ _ Hs).
    now rewrite (word_frequency_success _ _ _ _ _ _ _ _
                   (request_succeeds_anywhere _ _ _ _ _ w2 _ _ _ Hs)).
  - destruct (word_frequency_cases net soup_get_text args w2)
      as [(topic0 & n & text & w1 & Hs) | _].
    + pose proof (word_frequency_success _ _ _ _ _ _ _ _
                    (request_succeeds_anywhere _ _ _ _ _ w _ _ _ Hs)) as Hok.
      rewrite Hrun in Hok. injection Hok as -> _.
      simpl in Hst. lia.
    + revert Hrun. clear Hst.
      unfold word_frequency.
      destruct (args_get "topic" args) as [topic0|];
        [|intros H; now injection H as <- _].
      destruct (args_get "n" args) as [ns|];
        [|intros H; now injection H as <- _].
      destruct (PyStr.is_empty topic0 || PyStr.is_empty ns);
        [intros H; now injection H as <- _|].
      run.
      destruct (Py.int ns) as [n|e];
        [|destruct (is_ValueError e); intros H; now injection H as <- _].
      destruct (n <=? 0); [intros H; now injection H as <- _|].
      pose proof (fetch_answer_independent net topic0 w w2) as Hind.
      destruct (fetch_wikipedia_data net topic0 w) as [r1 wa].
      destruct (fetch_wikipedia_data net topic0 w2) as [r2 wb].
      simpl in Hind. subst r2.
      destruct r1 as [data|e]; [|intros H; now injection H as <- _].
      destruct (article_not_found data) as [[|]|e];
        try (intros H; now injection H as <- _).
      destruct (let* pages := pages_of data in
                let* ks := Py.keys pages in Py.first ks) as [page_id|e];
        [|intros H; now injection H as <- _].
      destruct (let* pages := pages_of data in
                let* page := Py.getitem pages page_id in
                Py.contains "title" page) as [[|]|e];
        try (intros H; now injection H as <- _).
      cbn [negb].
      destruct (let* pages := pages_of data in
                let* page := Py.getitem pages page_id in
                Py.getitem page "extract") as [article|e];
        [|intros H; now injection H as <- _].
      destruct (soup_get_text article) as [text|e];
        [|intros H; now injection H as <- _].
      destruct (PyStr.is_empty text); intros H; now injection H as <- _.
Qed.

(** X19. There is no uniqueness on topics: when a request answered 200
    is made again right away against the same upstream, it is answered
    the same, and the table ends with two rows that have the same topic
    and the same top_words and differ in their rowid. *)
Theorem repeated_request_duplicates_row (net : string -> http_result)
    (soup_get_text : json -> result string)
    (args : list (string * string)) (w w1 : world) (resp : http_response) :
  word_frequency net soup_get_text args w = (Ok resp, w1) ->
  status resp = 200 ->
  exists w2 e1 e2,
    word_frequency net soup_get_text args w1 = (Ok resp, w2) /\
    table w1 = (table w ++ [e1])%list /\
    table w2 = (table w ++ [e1; e2])%list /\
    topic e1 = topic e2 /\
    top_words e1 = top_words e2 /\
    id e1 < id e2.
Proof.
  intros Hrun H200.
  destruct (word_frequency_200_inv _ _ _ _ _ _ Hrun H200)
    as (topic0 & n & text & wa & Hs & Htab & -> & ->).
  set (r := analyze_word_frequency text n).
  set (wmid := saved topic0 r wa).
  pose proof (request_succeeds_anywhere _ _ _ _ _ wmid _ _ _ Hs) as Hs2.
  pose proof (word_frequency_success _ _ _ _ _ _ _ _ Hs2) as Hok.
  pose proof (keeps_table_fetch_wikipedia_data net topic0 wmid) as Htab2.
  assert (Hmid : table wmid = (table w ++ [new_entry (table w) topic0 r])%list)
    by (unfold wmid; simpl; now rewrite Htab).
  exists (saved topic0 r (snd (fetch_wikipedia_data net topic0 wmid))),
         (new_entry (table w) topic0 r),
         (new_entry (table w ++ [new_entry (table w) topic0 r]) topic0 r).
  split; [exact Hok|]. split; [exact Hmid|].
  split.
  { simpl. rewrite Htab2, Hmid, <- app_assoc. reflexivity. }
  split; [reflexivity|]. split; [reflexivity|].
  pose proof (next_id_fresh (table w ++ [new_entry (table w) topic0 r]))
    as Hfresh.
  apply Forall_app in Hfresh.
  destruct Hfresh as [_ Hlast]. inversion Hlast as [|? ? Hlt _]; subst.
  exact Hlt.
Qed.

Lemma repeated_request_duplicates_row_witness :
  let args := [("topic", "Cat"); ("n", "3")] in
  let out := word_frequency net_cat markup_free_get_text args empty_world in
  let resp := {| status := 200;
                 body := word_frequency_body
                           [("the", 3); ("cat", 2); ("sat", 1)] |} in
  out = (Ok resp, snd out) /\
  status resp = 200 /\
  exists w2 e1 e2,
    word_frequency net_cat markup_free_get_text args (snd out)
    = (Ok resp, w2) /\
    table (snd out) = (table empty_world ++ [e1])%list /\
    table w2 = (table empty_world ++ [e1; e2])%list /\
    topic e1 = topic e2 /\
    top_words e1 = top_words e2 /\
    id e1 < id e2.
Proof.
  intros args out resp.
  assert (Hrun : out = (Ok resp, snd out)) by (vm_compute; reflexivity).
  split; [exact Hrun|]. split; [reflexivity|].
  exact (repeated_request_duplicates_row net_cat markup_free_get_text args
           empty_world (snd out) resp Hrun eq_refl).
Defined.
